(** * corsproxydemo: the per-host backoff ledger and the forwarding path

    A shallow embedding of [corsproxydemo.py] (class [CorsProxyServer]) and
    the properties of its backoff ledger ([_active_backoff],
    [_register_backoff], [_clear_backoff]), of the target validator
    ([_parse_target], [_host_key]) and of the forwarder ([proxy_raw]).

    Conventions.
    - Python [int] is [Z]; the attempt counter, which the code only ever
      sets to 1 or increments, is [nat].
    - [str] is [string], one character for each code point, so the text
      modelled is the text whose code points are at most U+00FF (what a
      Latin-1 decoder yields).  On that text the white space skipped by
      [float] and [int], the decimal digits, [str.strip] and [str.lower]
      are those of Python; [Py.lower] is the lowering of header names,
      which changes the ASCII letters only.
    - A Python [dict] is a [gmap]; the ledger [self.backoffs] is
      [gmap string BackoffRecord].
    - A raised exception is the [Raise] result; stateful methods thread the
      server state explicitly and return the state reached when the
      exception left the method.
    - [datetime] values are counted in microseconds, the resolution of the
      Python type, and every reading of [self._now()] is an argument.
    - Floats are binary64 values held exactly, so that [int(float(text))]
      and [int(delta.total_seconds())] are the integers Python computes.
    - The upstream is an argument too: the client is a function from the
      request to the answer or the error, and the server state keeps the
      list of requests handed to it.  A request is run to its end without
      interleaving with other requests. *)

From Stdlib Require Import ZArith Lia Ascii.
From stdpp Require Import base option list gmap strings pretty.

Local Open Scope Z_scope.

(** ** Python results and exceptions *)

Module Py.

(** The exceptions that can leave the modelled methods. *)
Inductive exn : Type :=
  | HTTPException (status_code : Z) (detail : string)
                  (headers : list (string * string))  (* [] for None *)
  | ValueError
  | OverflowError
  | RuntimeError (msg : string)
  | InvalidURL (msg : string).

Inductive result (A : Type) : Type :=
  | Ok (a : A)
  | Raise (e : exn).
Arguments Ok {A} a.
Arguments Raise {A} e.

Definition bind {A B} (r : result A) (k : A -> result B) : result B :=
  match r with
  | Ok a => k a
  | Raise e => Raise e
  end.

Definition is_ok {A} (r : result A) : bool :=
  match r with Ok _ => true | Raise _ => false end.

(** *** Binary64 floats

    A Python [float] is nan, an infinity, or [(-1)^neg * m * 2^e] with
    [0 <= m <= 2^53] and [-1074 <= e]. *)
Inductive pyfloat : Type :=
  | PyNaN
  | PyInf (neg : bool)
  | PyFinite (neg : bool) (m e : Z).

(** [floor (log2 (n / d))] for positive [n] and [d]. *)
Definition floor_log2_ratio (n d : Z) : Z :=
  let l := Z.log2 n - Z.log2 d in
  if d * 2 ^ Z.max l 0 <=? n * 2 ^ Z.max (- l) 0 then l else l - 1.

(** Nearest integer to [num / den], ties to even. *)
Definition round_half_even (num den : Z) : Z :=
  let q := num / den in
  match 2 * (num mod den) ?= den with
  | Lt => q
  | Gt => q + 1
  | Eq => if Z.even q then q else q + 1
  end.

(** The binary64 value nearest to [n / d] ([0 <= n], [0 < d]), as computed
    both by [float(str)] and by the true division [int / int]: correctly
    rounded, ties to even, overflowing to infinity from [2^1024]. *)
Definition round64 (neg : bool) (n d : Z) : pyfloat :=
  if n =? 0 then PyFinite neg 0 0
  else
    let e := Z.max (floor_log2_ratio n d - 52) (-1074) in
    let m := round_half_even (n * 2 ^ Z.max (- e) 0) (d * 2 ^ Z.max e 0) in
    if 2 ^ 1024 <=? m * 2 ^ Z.max e 0 then PyInf neg else PyFinite neg m e.

(** [a / b] on integers (true division), for [b > 0]. *)
Definition int_truediv (a b : Z) : pyfloat :=
  round64 (a <? 0) (Z.abs a) b.

(** [int(x)] for a float [x]: truncation toward zero; nan and the
    infinities raise. *)
Definition int_of_float (x : pyfloat) : result Z :=
  match x with
  | PyNaN => Raise ValueError
  | PyInf _ => Raise OverflowError
  | PyFinite neg m e =>
      let a := if 0 <=? e then m * 2 ^ e else m / 2 ^ (- e) in
      Ok (if neg then - a else a)
  end.

(** *** ASCII text *)

Definition code (c : ascii) : Z := Z.of_N (Ascii.N_of_ascii c).

Definition is_digit (c : ascii) : bool := (48 <=? code c) && (code c <=? 57).
Definition digit_value (c : ascii) : Z := code c - 48.

(** The white space that [float] and [int] skip at both ends of a text:
    the C white space (U+0009 to U+000D and the blank) and the characters
    that the conversion of the text turns into blanks, U+0085 and U+00A0.
    (U+001C to U+001F are white space for [str.strip] but not here.) *)
Definition is_space (c : ascii) : bool :=
  ((9 <=? code c) && (code c <=? 13)) || (code c =? 32)
  || (code c =? 133) || (code c =? 160).

Definition lower_ascii (c : ascii) : ascii :=
  if (65 <=? code c) && (code c <=? 90)
  then Ascii.ascii_of_N (Z.to_N (code c + 32)) else c.

Fixpoint lower (s : string) : string :=
  match s with
  | EmptyString => EmptyString
  | String c s' => String (lower_ascii c) (lower s')
  end.

Fixpoint lstrip (s : list ascii) : list ascii :=
  match s with
  | c :: s' => if is_space c then lstrip s' else s
  | [] => []
  end.

Definition strip (s : list ascii) : list ascii :=
  reverse (lstrip (reverse (lstrip s))).

(** [str(n)] for an integer. *)
Definition str_of_int (n : Z) : string := pretty n.

(** *** [float(str)]

    The grammar of the documentation of [float]:
    [[sign] (floatnumber | "inf" | "infinity" | "nan")] between optional
    white space, letters in any case, where
    [digitpart ::= digit (["_"] digit)*],
    [number ::= [digitpart] "." digitpart | digitpart ["."]] and
    [floatnumber ::= number [("e" | "E") [sign] digitpart]]. *)

(** The rest of a [digitpart] whose first digit has been read: [v] is the
    value of the digits read so far and [k] their number. *)
Fixpoint digits_tail (s : list ascii) (v k : Z) : Z * Z * list ascii :=
  match s with
  | c :: s' =>
      if is_digit c then digits_tail s' (10 * v + digit_value c) (k + 1)
      else if Ascii.eqb c "_"%char then
        match s' with
        | c' :: s'' =>
            if is_digit c'
            then digits_tail s'' (10 * v + digit_value c') (k + 1)
            else (v, k, s)
        | [] => (v, k, s)
        end
      else (v, k, s)
  | [] => (v, k, s)
  end.

Definition digitpart (s : list ascii) (v k : Z)
  : option (Z * Z * list ascii) :=
  match s with
  | c :: s' =>
      if is_digit c
      then Some (digits_tail s' (10 * v + digit_value c) (k + 1))
      else None
  | [] => None
  end.

Definition sign (s : list ascii) : bool * list ascii :=
  match s with
  | c :: s' =>
      if Ascii.eqb c "-"%char then (true, s')
      else if Ascii.eqb c "+"%char then (false, s')
      else (false, s)
  | [] => (false, s)
  end.

(** [number]: the decimal digits as an integer, the number of them after
    the point, and the unread text. *)
Definition number (s : list ascii) : option (Z * Z * list ascii) :=
  match digitpart s 0 0 with
  | Some (v, _, rest) =>
      match rest with
      | c :: rest' =>
          if Ascii.eqb c "."%char
          then match digitpart rest' v 0 with
               | Some r => Some r
               | None => Some (v, 0, rest')
               end
          else Some (v, 0, rest)
      | [] => Some (v, 0, rest)
      end
  | None =>
      match s with
      | c :: rest' => if Ascii.eqb c "."%char then digitpart rest' 0 0 else None
      | [] => None
      end
  end.

(** The optional exponent, which must end the text. *)
Definition exponent (s : list ascii) : option Z :=
  match s with
  | [] => Some 0
  | c :: s' =>
      if Ascii.eqb (lower_ascii c) "e"%char then
        let '(neg, s'') := sign s' in
        match digitpart s'' 0 0 with
        | Some (v, _, []) => Some (if neg then - v else v)
        | _ => None
        end
      else None
  end.

Definition float_of_string (s : string) : result pyfloat :=
  let '(neg, body) := sign (strip (String.list_ascii_of_string s)) in
  let word := lower (String.string_of_list_ascii body) in
  if bool_decide (word = "inf" \/ word = "infinity") then Ok (PyInf neg)
  else if bool_decide (word = "nan") then Ok PyNaN
  else
    match number body with
    | Some (v, k, rest) =>
        match exponent rest with
        | Some x =>
            let d := x - k in
            Ok (if 0 <=? d then round64 neg (v * 10 ^ d) 1
                else round64 neg v (10 ^ (- d)))
        | None => Raise ValueError
        end
    | None => Raise ValueError
    end.

(** [int(str)] in base ten: [[sign] digitpart] between optional white
    space. *)
Definition int_of_string (s : string) : result Z :=
  let '(neg, body) := sign (strip (String.list_ascii_of_string s)) in
  match digitpart body 0 0 with
  | Some (v, _, []) => Ok (if neg then - v else v)
  | _ => Raise ValueError
  end.

(** [try: r  except ValueError: h]. *)
Definition except_ValueError {A} (r h : result A) : result A :=
  match r with
  | Raise ValueError => h
  | _ => r
  end.

End Py.

(** ** [datetime] and [timedelta]

    An aware UTC [datetime] is the number of microseconds since
    0001-01-01T00:00:00; [datetime.max] is the last microsecond of day
    3652059 (9999-12-31).  A [timedelta] is a number of microseconds. *)

Module Datetime.
Import Py.

Abbreviation datetime := Z (only parsing).
Abbreviation timedelta := Z (only parsing).

Definition us_per_second : Z := 1000000.
Definition us_per_day : Z := 86400 * us_per_second.
Definition max_ordinal : Z := 3652059.
Definition max_delta_days : Z := 999999999.

Definition in_range (t : datetime) : bool :=
  (0 <=? t) && (t <? max_ordinal * us_per_day).

(** [timedelta(seconds=n)] for an integer [n]: the days of the
    normalised value are bounded. *)
Definition timedelta_of_seconds (n : Z) : result timedelta :=
  if Z.abs (n / 86400) <=? max_delta_days
  then Ok (n * us_per_second) else Raise OverflowError.

(** [t + td]. *)
Definition add (t : datetime) (td : timedelta) : result datetime :=
  if in_range (t + td) then Ok (t + td) else Raise OverflowError.

(** [(a - b).total_seconds()]. *)
Definition total_seconds (td : timedelta) : pyfloat :=
  int_truediv td us_per_second.

End Datetime.

(** ** The backoff ledger *)

Module Ledger.
Import Py Datetime.

(** [BackoffRecord]. *)
Record BackoffRecord : Type := {
  until : datetime;
  attempts : nat;
  status : Z;
}.

(** The backoff settings of [CorsProxyServer.__init__]. *)
Record Config : Type := {
  backoff_base_seconds : Z;
  backoff_max_seconds : Z;
  long_backoff_seconds : Z;
  long_backoff_statuses : gset Z;
}.

Definition default_config : Config := {|
  backoff_base_seconds := 30;
  backoff_max_seconds := 900;
  long_backoff_seconds := 86400;
  long_backoff_statuses := {[ 403; 404; 500 ]};
|}.

(** [self.backoffs]. *)
Abbreviation ledger := (gmap string BackoffRecord) (only parsing).

(** [_active_backoff], with [now] the reading of [self._now()]. *)
Definition _active_backoff (now : datetime) (host : string) (backoffs : ledger)
  : ledger * result (option Z) :=
  match backoffs !! host with
  | None => (backoffs, Ok None)
  | Some record =>
      if until record <=? now then (delete host backoffs, Ok None)
      else
        (backoffs,
         bind (int_of_float (total_seconds (until record - now)))
              (fun w => Ok (Some w)))
  end.

(** Lines 166-172 of [_register_backoff]: the header as whole seconds. *)
Definition parse_retry_after (retry_after_header : option string)
  : result (option Z) :=
  match retry_after_header with
  | None => Ok None
  | Some h =>
      if bool_decide (h = "") then Ok None
      else
        except_ValueError
          (bind (bind (float_of_string h) int_of_float)
                (fun r => Ok (Some r)))
          (Ok None)
  end.

(** Lines 174-183: the attempt count and the delay before the header is
    taken into account. *)
Definition base_backoff (cfg : Config) (host : string) (status_code : Z)
    (backoffs : ledger) : nat * Z :=
  if bool_decide (status_code ∈ long_backoff_statuses cfg)
  then (1%nat, long_backoff_seconds cfg)
  else
    let prior := backoffs !! host in
    let attempts :=
      (match prior with Some p => attempts p | None => 0 end + 1)%nat in
    (attempts,
     Z.min (backoff_base_seconds cfg * 2 ^ (Z.of_nat attempts - 1))
           (backoff_max_seconds cfg)).

(** [_register_backoff], with [now] the reading of [self._now()]. *)
Definition _register_backoff (cfg : Config) (now : datetime) (host : string)
    (status_code : Z) (retry_after_header : option string) (backoffs : ledger)
  : ledger * result Z :=
  match parse_retry_after retry_after_header with
  | Raise e => (backoffs, Raise e)
  | Ok retry_after =>
      let '(attempts, delay) := base_backoff cfg host status_code backoffs in
      let delay :=
        match retry_after with
        | Some r => Z.max delay r
        | None => delay
        end in
      match bind (timedelta_of_seconds delay) (add now) with
      | Raise e => (backoffs, Raise e)
      | Ok until =>
          (<[host := {| until := until; attempts := attempts;
                        status := status_code |}]> backoffs,
           Ok delay)
      end
  end.

(** [_clear_backoff]. *)
Definition _clear_backoff (host : string) (backoffs : ledger) : ledger :=
  delete host backoffs.

End Ledger.

(** ** The HTTP client library

    What the proxy uses of [httpx]: header collections, and URLs through
    the three things it reads of a parsed URL. *)

Module Httpx.
Import Py.

(** [httpx.Headers], as the list of header lines received. *)
Abbreviation Headers := (list (string * string)) (only parsing).

(** [Headers.items()]: one item per lower-cased name, the values of a
    repeated name joined by a comma. *)
Definition items (h : Headers) : gmap string string :=
  foldl (fun (values_dict : gmap string string) (kv : string * string) =>
           let key := lower kv.1 in
           match values_dict !! key with
           | Some old => <[key := old +:+ ", " +:+ kv.2]> values_dict
           | None => <[key := kv.2]> values_dict
           end) ∅ h.

(** [Headers.get(key)]. *)
Definition get (h : Headers) (key : string) : option string :=
  items h !! lower key.

(** An [httpx.URL]: [.scheme], [.host] and [str(url)]. *)
Record URL : Type := {
  scheme : string;
  host : string;
  url_str : string;
}.

(** What [client.get] delivers: [status_code], [headers], [content]. *)
Record Upstream : Type := {
  status_code : Z;
  headers : Headers;
  content : string;
}.

(** The client: the answer, or the text of the [httpx.RequestError], to a
    GET of a URL with the given headers. *)
Abbreviation Client :=
  (string -> list (string * string) -> string + Upstream) (only parsing).

End Httpx.

(** *** A model of the URL parser

    [httpx.URL(text)] for printable ASCII text, after the regular
    expressions of the library's [urlparse]: the split into scheme,
    authority, path, query and fragment, the split of the authority into
    user information, host and port, the integer check of the port and the
    check of the path.  Percent-encoding, dot-segment removal, IDNA and the
    validation of IP literals are left out: the model is meant for host
    names and paths that need none of them. *)

Module HttpxModel.
Import Py Httpx.

Definition MAX_URL_LENGTH : Z := 65536.

Fixpoint break (p : ascii -> bool) (s : list ascii)
  : list ascii * list ascii :=
  match s with
  | [] => ([], [])
  | c :: s' =>
      if p c then ([], s)
      else let '(a, b) := break p s' in (c :: a, b)
  end.

Definition one_of (cs : string) (c : ascii) : bool :=
  bool_decide (c ∈ String.list_ascii_of_string cs).

Definition is_alpha (c : ascii) : bool :=
  (97 <=? code (lower_ascii c)) && (code (lower_ascii c) <=? 122).

Definition is_scheme_char (c : ascii) : bool :=
  is_alpha c || is_digit c || one_of "+.-" c.

Definition is_printable (c : ascii) : bool :=
  (32 <=? code c) && negb (code c =? 127).

(** The scheme of [URL_REGEX]: a letter followed by letters, digits,
    plus, dot or minus, or nothing, and then a colon. *)
Definition split_scheme (s : list ascii) : option (list ascii) * list ascii :=
  match s with
  | c :: s' =>
      if is_alpha c then
        match break (fun c => negb (is_scheme_char c)) s with
        | (name, c' :: rest) =>
            if Ascii.eqb c' ":"%char then (Some name, rest) else (None, s)
        | _ => (None, s)
        end
      else if Ascii.eqb c ":"%char then (Some [], s')
      else (None, s)
  | [] => (None, s)
  end.

(** The authority of [URL_REGEX]: after two slashes, up to the next
    slash, question mark or hash. *)
Definition split_authority (s : list ascii)
  : option (list ascii) * list ascii :=
  match s with
  | c1 :: c2 :: s' =>
      if Ascii.eqb c1 "/"%char && Ascii.eqb c2 "/"%char
      then let '(a, rest) := break (one_of "/?#") s' in (Some a, rest)
      else (None, s)
  | _ => (None, s)
  end.

(** The query (after a question mark, up to a hash) and the fragment
    (after a hash) of [URL_REGEX]. *)
Definition split_query_fragment (s : list ascii)
  : option (list ascii) * option (list ascii) :=
  let '(query, rest) :=
    match s with
    | c :: s' =>
        if Ascii.eqb c "?"%char
        then let '(q, rest) := break (one_of "#") s' in (Some q, rest)
        else (None, s)
    | [] => (None, s)
    end in
  match rest with
  | c :: f => if Ascii.eqb c "#"%char then (query, Some f) else (query, None)
  | [] => (query, None)
  end.

(** The text up to the last occurrence of [c], and the text after it. *)
Definition split_last (c : ascii) (s : list ascii)
  : option (list ascii * list ascii) :=
  match break (Ascii.eqb c) (reverse s) with
  | (after, _ :: before) => Some (reverse before, reverse after)
  | (_, []) => None
  end.

(** [AUTHORITY_REGEX]: the user information ends at the last at-sign; the
    host is a bracketed text or runs up to a colon; the port is what
    follows, less a leading colon. *)
Definition split_userinfo_host_port (authority : list ascii)
  : list ascii * list ascii * list ascii :=
  let '(userinfo, rest) :=
    match split_last "@"%char authority with
    | Some r => r
    | None => ([], authority)
    end in
  let '(host, rest) :=
    match rest with
    | c :: _ =>
        if Ascii.eqb c "["%char then
          match split_last "]"%char rest with
          | Some (h, after) => (h ++ ["]"%char], after)
          | None => break (one_of ":@") rest
          end
        else break (one_of ":@") rest
    | [] => ([], [])
    end in
  let port :=
    match rest with
    | c :: p => if Ascii.eqb c ":"%char then p else rest
    | [] => []
    end in
  (userinfo, host, port).

(** [normalize_port]. *)
Definition normalize_port (port scheme : string) : string + option Z :=
  if bool_decide (port = "") then inr None
  else
    match int_of_string port with
    | Ok n =>
        let default_port :=
          if bool_decide (scheme = "ftp") then Some 21
          else if bool_decide (scheme = "http" \/ scheme = "ws") then Some 80
          else if bool_decide (scheme = "https" \/ scheme = "wss")
               then Some 443
          else None in
        inr (if bool_decide (default_port = Some n) then None else Some n)
    | Raise _ => inl ("Invalid port: '" +:+ port +:+ "'")
    end.

(** [validate_path]. *)
Definition validate_path (path : list ascii) (has_scheme has_authority : bool)
  : option string :=
  if has_authority then
    match path with
    | c :: _ =>
        if Ascii.eqb c "/"%char then None
        else Some "For absolute URLs, path must be empty or begin with '/'"
    | [] => None
    end
  else
    match path with
    | c1 :: c2 :: _ =>
        if Ascii.eqb c1 "/"%char && Ascii.eqb c2 "/"%char
        then Some "URLs with no authority component cannot have a path starting with '//'"
        else if Ascii.eqb c1 ":"%char && negb has_scheme
        then Some "URLs with no scheme component cannot have a path starting with ':'"
        else None
    | [c] =>
        if Ascii.eqb c ":"%char && negb has_scheme
        then Some "URLs with no scheme component cannot have a path starting with ':'"
        else None
    | [] => None
    end.

Definition text (s : list ascii) : string := String.string_of_list_ascii s.

Definition URL_of_string (url : string) : string + URL :=
  let chars := String.list_ascii_of_string url in
  if MAX_URL_LENGTH <? Z.of_nat (length chars) then inl "URL too long"
  else if negb (forallb is_printable chars)
  then inl "Invalid non-printable ASCII character in URL"
  else
    let '(scheme, rest) := split_scheme chars in
    let '(authority, rest) := split_authority rest in
    let '(path, rest) := break (one_of "?#") rest in
    let '(query, fragment) := split_query_fragment rest in
    let scheme := text (default [] scheme) in
    let '(userinfo, host, port) :=
      split_userinfo_host_port (default [] authority) in
    let parsed_scheme := lower scheme in
    let parsed_host := lower (text host) in
    match normalize_port (text port) scheme with
    | inl msg => inl msg
    | inr parsed_port =>
        let has_scheme := negb (bool_decide (parsed_scheme = "")) in
        let has_authority :=
          negb (bool_decide (userinfo = [])) ||
          negb (bool_decide (parsed_host = "")) ||
          negb (bool_decide (parsed_port = None)) in
        match validate_path path has_scheme has_authority with
        | Some msg => inl msg
        | None =>
            let authority_text :=
              (if bool_decide (userinfo = []) then ""
               else text userinfo +:+ "@")
              +:+ parsed_host
              +:+ match parsed_port with
                  | Some n => ":" +:+ str_of_int n
                  | None => ""
                  end in
            inr {| Httpx.scheme := parsed_scheme;
                   Httpx.host := parsed_host;
                   url_str :=
                     (if has_scheme then parsed_scheme +:+ ":" else "")
                     +:+ (if bool_decide (authority_text = "") then ""
                          else "//" +:+ authority_text)
                     +:+ text path
                     +:+ match query with
                         | Some q => "?" +:+ text q
                         | None => ""
                         end
                     +:+ match fragment with
                         | Some f => "#" +:+ text f
                         | None => ""
                         end |}
        end
    end.

End HttpxModel.

(** ** The server *)

Module CorsProxyServer.
Import Py Datetime Httpx.
Export Ledger.

Definition HOP_BY_HOP_HEADERS : gset string :=
  {[ "connection"; "keep-alive"; "proxy-authenticate"; "proxy-authorization";
     "te"; "trailer"; "transfer-encoding"; "upgrade" ]}.

(** The part of [self] that [proxy_raw] reads and writes, and [sent], the
    requests handed to the client so far. *)
Record Server : Type := {
  backoffs : gmap string BackoffRecord;
  client : option Client;
  sent : list (string * list (string * string));
}.

Definition set_backoffs (b : gmap string BackoffRecord) (s : Server) : Server :=
  {| backoffs := b; client := client s; sent := sent s |}.

(** The [Response] built by [proxy_raw]. *)
Record Response : Type := {
  resp_content : string;
  resp_status_code : Z;
  resp_headers : gmap string string;
  resp_media_type : option string;
}.

(** Methods of the server: state in, state and result out. *)
Definition M (A : Type) : Type := Server -> Server * result A.

Definition ret {A} (a : A) : M A := fun s => (s, Ok a).
Definition raise {A} (e : exn) : M A := fun s => (s, Raise e).
Definition mbind {A B} (m : M A) (k : A -> M B) : M B :=
  fun s =>
    match m s with
    | (s', Ok a) => k a s'
    | (s', Raise e) => (s', Raise e)
    end.
Definition lift {A} (r : result A) : M A := fun s => (s, r).

(** A ledger operation run on [self.backoffs]. *)
Definition on_backoffs {A}
    (f : gmap string BackoffRecord -> gmap string BackoffRecord * result A)
  : M A :=
  fun s => let '(b, r) := f (backoffs s) in (set_backoffs b s, r).

Notation "x <- m ;; k" := (mbind m (fun x => k))
  (at level 100, m at next level, right associativity).

(** [request.headers.get(key)]: the first line with that name (the server
    framework stores names in lower case). *)
Fixpoint request_header (hs : list (string * string)) (key : string)
  : option string :=
  match hs with
  | [] => None
  | (k, v) :: hs' =>
      if bool_decide (k = lower key) then Some v else request_header hs' key
  end.

(** [x or default] for an optional string. *)
Definition or_default (x : option string) (default : string) : string :=
  match x with
  | Some s => if bool_decide (s = "") then default else s
  | None => default
  end.

Definition default_user_agent : string :=
  "Mozilla/5.0 (Windows NT 10.0; Win64; x64) AppleWebKit/537.36 (KHTML, like Gecko) Chrome/120.0.0.0 Safari/537.36".
Definition default_accept : string :=
  "application/rss+xml,application/xml;q=0.9,text/xml;q=0.8,*/*;q=0.7".
Definition default_accept_language : string := "en-US,en;q=0.9".

(** Lines 296-302 of [proxy_raw]: the upstream headers that are kept. *)
Definition sanitize_headers (h : Headers) : gmap string string :=
  let headers :=
    filter (fun kv : string * string => lower kv.1 ∉ HOP_BY_HOP_HEADERS)
           (items h) in
  delete "content-encoding" (delete "content-length" headers).

Section WithURL.

(** [httpx.URL(text)]: the parsed URL, or the text of the
    [httpx.InvalidURL] it raises. *)
Variable httpx_URL : string -> string + URL.

Definition parse_URL (text : string) : result URL :=
  match httpx_URL text with
  | inl msg => Raise (InvalidURL msg)
  | inr u => Ok u
  end.

Definition _parse_target (raw_url : string) : result string :=
  if bool_decide (raw_url = "")
  then Raise (HTTPException 400 "Missing url parameter" [])
  else
    bind (parse_URL raw_url) (fun target =>
      if negb (bool_decide (scheme target = "http" \/ scheme target = "https"))
         || bool_decide (host target = "")
      then Raise (HTTPException 400
                    "Only absolute http(s) URLs with a host are allowed" [])
      else Ok (url_str target)).

Definition _host_key (target : string) : result string :=
  bind (parse_URL target) (fun parsed =>
    if bool_decide (host parsed = "")
    then Raise (HTTPException 400 "Target host is required" [])
    else Ok (host parsed)).

(** Lines 270-315 of [proxy_raw]: the upstream request and what follows
    it; [now_register] is the reading of [self._now()] in
    [_register_backoff]. *)
Definition forward_upstream (cfg : Config) (now_register : datetime)
    (request_headers : list (string * string)) (target host_key : string)
  : M Response :=
  fun s =>
    match client s with
    | None => (s, Raise (RuntimeError "HTTP client not initialised"))
    | Some client_get =>
        let ua :=
          or_default (request_header request_headers "user-agent")
                     default_user_agent in
        let accept :=
          or_default (request_header request_headers "accept")
                     default_accept in
        let accept_lang :=
          or_default (request_header request_headers "accept-language")
                     default_accept_language in
        let referer :=
          or_default (request_header request_headers "referer") target in
        let request :=
          [("User-Agent", ua); ("Accept", accept);
           ("Accept-Language", accept_lang); ("Referer", referer)] in
        let s :=
          {| backoffs := backoffs s; client := client s;
             sent := sent s ++ [(target, request)] |} in
        match client_get target request with
        | inl exc =>
            (delay <- on_backoffs
                        (_register_backoff cfg now_register host_key 503 None) ;;
             raise (HTTPException 502
                      ("Upstream connection failed: " +:+ exc)
                      [("Retry-After", str_of_int delay)])) s
        | inr upstream =>
            let status := status_code upstream in
            let headers := sanitize_headers (headers upstream) in
            let media_type := get (Httpx.headers upstream) "content-type" in
            if (status =? 429)
               || bool_decide (status ∈ long_backoff_statuses cfg)
            then
              (delay <- on_backoffs
                          (_register_backoff cfg now_register host_key status
                             (headers !! "Retry-After")) ;;
               ret {| resp_content := content upstream;
                      resp_status_code := status;
                      resp_headers :=
                        <["Retry-After" := str_of_int delay]> headers;
                      resp_media_type := media_type |}) s
            else
              (set_backoffs (_clear_backoff host_key (backoffs s)) s,
               Ok {| resp_content := content upstream;
                     resp_status_code := status;
                     resp_headers := headers;
                     resp_media_type := media_type |})
        end
    end.

(** [proxy_raw], run without interleaving; [now_check] is the reading of
    [self._now()] in [_active_backoff].  [if wait:] holds for an integer
    other than zero. *)
Definition proxy_raw (cfg : Config) (now_check now_register : datetime)
    (request_headers : list (string * string)) (url : string)
  : M Response :=
  target <- lift (_parse_target url) ;;
  host_key <- lift (_host_key target) ;;
  wait <- on_backoffs (_active_backoff now_check host_key) ;;
  match wait with
  | Some w =>
      if w =? 0
      then forward_upstream cfg now_register request_headers target host_key
      else raise (HTTPException 429 "Backoff in effect for upstream host"
                    [("Retry-After", str_of_int w)])
  | None => forward_upstream cfg now_register request_headers target host_key
  end.

End WithURL.

End CorsProxyServer.

(** ** Scenarios and the words of the specification *)

Module Scenario.
Import Py Datetime CorsProxyServer.

(** [now + timedelta(seconds=delay)] is a representable [datetime]. *)
Definition fits (now : datetime) (delay : Z) : bool :=
  is_ok (bind (timedelta_of_seconds delay) (add now)).

(** Consecutive calls [_register_backoff(host, status, None)], one for
    each reading of the clock and status in [calls]; the delays returned,
    in order. *)
Fixpoint register_failures (cfg : Config) (host : string)
    (calls : list (datetime * Z)) (backoffs : gmap string BackoffRecord)
  : gmap string BackoffRecord * result (list Z) :=
  match calls with
  | [] => (backoffs, Ok [])
  | (now, status) :: calls' =>
      match _register_backoff cfg now host status None backoffs with
      | (backoffs', Ok delay) =>
          match register_failures cfg host calls' backoffs' with
          | (backoffs'', Ok delays) => (backoffs'', Ok (delay :: delays))
          | (backoffs'', Raise e) => (backoffs'', Raise e)
          end
      | (backoffs', Raise e) => (backoffs', Raise e)
      end
  end.

(** The delay the specification gives to the [N]th consecutive
    short-backoff failure: [min(base * 2^(N-1), max)]. *)
Definition nth_delay_spec (cfg : Config) (N : nat) : Z :=
  Z.min (backoff_base_seconds cfg * 2 ^ (Z.of_nat N - 1))
        (backoff_max_seconds cfg).

(** [ceil(td)] in whole seconds, for [td] in microseconds. *)
Definition ceil_seconds (td : timedelta) : Z := - ((- td) / us_per_second).

(** [checkActive] after the words of the specification: none for an
    absent host; a record whose [resumeAt] is in the past is deleted;
    otherwise [ceil(resumeAt - now)] seconds. *)
Definition checkActive_spec (now : datetime) (host : string)
    (backoffs : gmap string BackoffRecord)
  : gmap string BackoffRecord * option Z :=
  match backoffs !! host with
  | None => (backoffs, None)
  | Some record =>
      if until record <? now then (delete host backoffs, None)
      else (backoffs, Some (ceil_seconds (until record - now)))
  end.

(** [prior.attempts if prior else 0]. *)
Definition prior_attempts (host : string)
    (backoffs : gmap string BackoffRecord) : nat :=
  match backoffs !! host with
  | Some p => attempts p
  | None => 0
  end.

(** The ledgers that Python can hold: every deadline is a representable
    [datetime] and every attempt count is at least 1. *)
Definition ledger_wf (backoffs : gmap string BackoffRecord) : Prop :=
  forall host r, backoffs !! host = Some r ->
    in_range (until r) = true /\ (1 <= attempts r)%nat.


(** The values of the header lines of [h] whose name is [name] in lower
    case, in order. *)
Definition header_values (name : string) (h : list (string * string))
  : list string :=
  (filter (fun kv : string * string => lower kv.1 = name) h).*2.

(** The values joined by a comma and a space, after [old] if there is
    one; none when there is nothing to join. *)
Fixpoint join_values (old : option string) (values : list string)
  : option string :=
  match values with
  | [] => old
  | v :: values' =>
      join_values
        (Some match old with
              | Some text => text +:+ ", " +:+ v
              | None => v
              end)
        values'
  end.

(** *** Worked examples *)

(** A reading of the clock in 2025. *)
Definition example_now : datetime := 63900000000000000.

(** A record that expires a second and a half after [example_now]. *)
Definition example_record : BackoffRecord :=
  {| until := example_now + 1500000; attempts := 1; status := 429 |}.

(** An upstream that answers every request with a feed. *)
Definition example_client (target : string) (request : list (string * string))
  : string + Httpx.Upstream :=
  inr {| Httpx.status_code := 200;
         Httpx.headers :=
           [("Content-Type", "text/xml"); ("Content-Length", "6");
            ("Connection", "keep-alive"); ("ETag", "v1")];
         Httpx.content := "<rss/>" |}.

(** A server whose ledger holds [example_record] for [example.com]. *)
Definition example_server : Server :=
  {| backoffs := {[ "example.com" := example_record ]};
     client := Some example_client;
     sent := [] |}.

Definition example_url : string := "http://example.com/feed.xml".


End Scenario.

(** ** Life cycle, request decoration and static files *)

Module Routes.
Import Py Datetime Httpx CorsProxyServer.


(** [startup], with the client that [httpx.AsyncClient(...)] builds. *)
Definition startup
    (new_client : string -> list (string * string) -> string + Upstream)
    (s : Server) : Server :=
  {| backoffs := backoffs s; client := Some new_client; sent := sent s |}.

(** [shutdown]: the client, if any, is closed and forgotten. *)
Definition shutdown (s : Server) : Server :=
  {| backoffs := backoffs s; client := None; sent := sent s |}.

(** The headers that [proxy_raw] hands to [client.get] (lines 274-286):
    the caller's value where it sent a non-empty one, a default
    otherwise. *)
Definition outbound_request (request_headers : list (string * string))
    (target : string) : list (string * string) :=
  [("User-Agent",
    or_default (request_header request_headers "user-agent")
               default_user_agent);
   ("Accept",
    or_default (request_header request_headers "accept") default_accept);
   ("Accept-Language",
    or_default (request_header request_headers "accept-language")
               default_accept_language);
   ("Referer",
    or_default (request_header request_headers "referer") target)].

(** The request gets past validation and the backoff check of
    [proxy_raw] (lines 259-268): [target] and [host_key] are what
    [_parse_target] and [_host_key] return, and [_active_backoff] leaves
    the ledger [b1] and answers none or zero. *)
Definition passes_gate (httpx_URL : string -> string + URL)
    (now_check : datetime) (url : string) (s : Server)
    (target host_key : string) (b1 : gmap string BackoffRecord) : Prop :=
  _parse_target httpx_URL url = Ok target
  /\ _host_key httpx_URL target = Ok host_key
  /\ exists wait,
       _active_backoff now_check host_key (backoffs s) = (b1, Ok wait)
       /\ (wait = None \/ wait = Some 0).

(** The results that [proxy_raw] can have once the request has been
    handed to the client: a response, the 502, or the [OverflowError] of
    [_register_backoff]. *)
Definition after_upstream (r : result Response) : Prop :=
  match r with
  | Ok _ => True
  | Raise OverflowError => True
  | Raise (HTTPException code _ _) => code = 502
  | Raise _ => False
  end.







(** [d < x] for an integer [d] and a float [x], which Python decides on
    the exact values. *)
Definition int_lt_float (d : Z) (x : pyfloat) : bool :=
  match x with
  | PyNaN => false
  | PyInf neg => negb neg
  | PyFinite neg m e =>
      let v := if neg then - m else m in
      if 0 <=? e then d <? v * 2 ^ e else d * 2 ^ (- e) <? v
  end.





(** A [FileResponse]: the file, the media type and the extra headers. *)
Record FileResponse : Type := {
  file_path : string;
  file_media_type : string;
  file_headers : option (list (string * string));
}.

Section Static.

(** [root.joinpath(name)] and [path.is_file()]: the path library and the
    file system. *)
Variable joinpath : string -> string -> string.
Variable is_file : string -> bool.

(** [self.static_root]. *)
Variable static_root : string.

Definition _file_response (filename media_type : string) (no_store : bool)
  : result FileResponse :=
  let path := joinpath static_root filename in
  if negb (is_file path)
  then Raise (HTTPException 404 ("Missing " +:+ filename) [])
  else Ok {| file_path := path;
             file_media_type := media_type;
             file_headers :=
               if no_store then Some [("Cache-Control", "no-store")]
               else None |}.

Definition serve_feedcycle_html : result FileResponse :=
  _file_response "feedcycle.html" "text/html; charset=utf-8" true.
Definition serve_feedcycle_js : result FileResponse :=
  _file_response "feedcycle.js" "application/javascript" true.
Definition serve_feedcycle_css : result FileResponse :=
  _file_response "feedcycle.css" "text/css" true.
Definition serve_pwa_js : result FileResponse :=
  _file_response "assets/js/pwa.js" "application/javascript" false.
Definition serve_version_js : result FileResponse :=
  _file_response "assets/js/version.js" "application/javascript" false.
Definition serve_parental_js : result FileResponse :=
  _file_response "parental.js" "application/javascript" false.
Definition serve_manifest : result FileResponse :=
  _file_response "manifest.webmanifest" "application/manifest+json" false.
Definition serve_favicon : result FileResponse :=
  _file_response "favicon.ico" "image/x-icon" false.

(** The routes that answer with a file, by the name of the file. *)
Definition file_routes : list (string * result FileResponse) :=
  [("feedcycle.html", serve_feedcycle_html);
   ("feedcycle.js", serve_feedcycle_js);
   ("feedcycle.css", serve_feedcycle_css);
   ("assets/js/pwa.js", serve_pwa_js);
   ("assets/js/version.js", serve_version_js);
   ("parental.js", serve_parental_js);
   ("manifest.webmanifest", serve_manifest);
   ("favicon.ico", serve_favicon)].

End Static.

(** The number that a run of decimal digits writes. *)
Definition decimal_value (digits : list ascii) : Z :=
  foldl (fun v c => 10 * v + digit_value c) 0 digits.

(** *** Worked examples *)

(** An upstream that cannot be reached. *)
Definition unreachable_client (target : string)
    (request : list (string * string)) : string + Upstream :=
  inl "connection refused".

(** A 429 that asks for an hour, and an upstream that answers with it. *)
Definition busy_answer : Upstream :=
  {| status_code := 429;
     headers := [("Retry-After", "3600"); ("Content-Type", "text/plain")];
     content := "slow down" |}.

Definition busy_client (target : string) (request : list (string * string))
  : string + Upstream :=
  inr busy_answer.

(** The answer of [Scenario.example_client]. *)
Definition example_answer : Upstream :=
  {| status_code := 200;
     headers :=
       [("Content-Type", "text/xml"); ("Content-Length", "6");
        ("Connection", "keep-alive"); ("ETag", "v1")];
     content := "<rss/>" |}.

(** A server with an empty ledger and the given client. *)
Definition fresh_server
    (c : option (string -> list (string * string) -> string + Upstream))
  : Server :=
  {| backoffs := ∅; client := c; sent := [] |}.

End Routes.
(** ** Facts about the float conversions *)

Module FloatFacts.
Import Py.

Lemma round_half_even_bounds num den :
  0 <= num -> 0 < den ->
  num / den <= round_half_even num den <= num / den + 1
  /\ (round_half_even num den = num / den + 1 -> den <= 2 * (num mod den)).
Proof.
  intros Hn Hd. unfold round_half_even.
  destruct (Z.compare_spec (2 * (num mod den)) den);
    try destruct (Z.even _); lia.
Qed.

(** The binary exponent of a number of microseconds below [2^59], seen as
    seconds. *)
Lemma floor_log2_ratio_seconds n :
  0 < n < 2 ^ 59 ->
  -20 <= floor_log2_ratio n 1000000 <= 39
  /\ (n < 2 ^ 34 * 1000000 -> floor_log2_ratio n 1000000 <= 33).
Proof.
  intros [Hpos Hlt]. unfold floor_log2_ratio.
  change (Z.log2 1000000) with 19.
  assert (H0 : 0 <= Z.log2 n) by apply Z.log2_nonneg.
  assert (H1 : Z.log2 n < 59) by (apply Z.log2_lt_pow2; lia).
  split.
  - destruct (_ <=? _); lia.
  - intros Hs.
    assert (H2 : Z.log2 n < 54).
    { apply Z.log2_lt_pow2; [lia|].
      eapply Z.lt_le_trans; [exact Hs|]. vm_compute. discriminate. }
    destruct (Z.eq_dec (Z.log2 n - 19) 34) as [E|E].
    + rewrite E.
      destruct (Z.leb_spec (1000000 * 2 ^ Z.max 34 0)
                           (n * 2 ^ Z.max (- (34)) 0)) as [Hle|]; [|lia].
      change (1000000 * 17179869184 <= n * 1) in Hle. lia.
    + destruct (_ <=? _); lia.
Qed.

(** [int(n / 1000000)] on a positive number of microseconds: the float
    quotient never overflows, its integer part is the floor of the exact
    quotient or one more, and it is the floor below [2^34] seconds, where
    binary64 still separates microseconds. *)
Lemma int_truediv_seconds n :
  0 < n < 2 ^ 59 ->
  exists w, int_of_float (int_truediv n 1000000) = Ok w
    /\ n / 1000000 <= w <= n / 1000000 + 1
    /\ (n < 2 ^ 34 * 1000000 -> w = n / 1000000).
Proof.
  intros Hn. destruct (floor_log2_ratio_seconds n Hn) as [Hfl Hfl34].
  unfold int_truediv, round64. cbv zeta.
  replace (n <? 0) with false by (symmetry; apply Z.ltb_ge; lia).
  rewrite Z.abs_eq by lia.
  replace (n =? 0) with false by (symmetry; apply Z.eqb_neq; lia).
  set (fl := floor_log2_ratio n 1000000) in *.
  rewrite (Z.max_l (fl - 52)) by lia.
  rewrite (Z.max_l (- (fl - 52))) by lia.
  rewrite (Z.max_r (fl - 52) 0) by lia.
  change (2 ^ 0) with 1. rewrite !Z.mul_1_r.
  set (S := 2 ^ (- (fl - 52))).
  assert (HS1 : 2 ^ 13 <= S) by (apply Z.pow_le_mono_r; lia).
  assert (HS2 : S <= 2 ^ 72) by (apply Z.pow_le_mono_r; lia).
  assert (HS3 : n < 2 ^ 34 * 1000000 -> 2 ^ 19 <= S).
  { intros. apply Z.pow_le_mono_r; lia. }
  destruct (round_half_even_bounds (n * S) 1000000)
    as [[Hm1 Hm2] Hm3]; [lia|lia|].
  set (m := round_half_even (n * S) 1000000) in *.
  pose proof (Z.div_mod (n * S) 1000000 ltac:(lia)) as Hq.
  pose proof (Z.mod_pos_bound (n * S) 1000000 ltac:(lia)) as Hr.
  pose proof (Z.div_mod n 1000000 ltac:(lia)) as Hk.
  pose proof (Z.mod_pos_bound n 1000000 ltac:(lia)) as Hrho.
  set (q := n * S / 1000000) in *. set (r := (n * S) mod 1000000) in *.
  set (k := n / 1000000) in *. set (rho := n mod 1000000) in *.
  assert (Hlow : k * S <= q) by nia.
  assert (Hup : q < (k + 1) * S) by nia.
  replace (2 ^ 1024 <=? m) with false.
  2:{ symmetry. apply Z.leb_gt.
      assert (m <= 2 ^ 59 * 2 ^ 72) by nia.
      eapply Z.le_lt_trans; [eassumption|]. vm_compute. reflexivity. }
  cbn [int_of_float].
  replace (0 <=? fl - 52) with false by (symmetry; apply Z.leb_gt; lia).
  fold S. exists (m / S). split; [reflexivity|].
  assert (0 < S) by lia.
  split.
  - split.
    + apply Z.div_le_lower_bound; lia.
    + apply Z.div_le_upper_bound; lia.
  - intros Hs. specialize (HS3 Hs). change (2 ^ 19) with 524288 in HS3.
    assert (Hmlt : m < (k + 1) * S).
    { destruct (Z.eq_dec m (q + 1)) as [E|E]; [|lia].
      specialize (Hm3 E). nia. }
    symmetry. apply Z.div_unique with (r := m - k * S); lia.
Qed.

(** The conversions on values whose Python results are well known. *)
Example float_of_string_examples :
  float_of_string "0.1" = Ok (PyFinite false 7205759403792794 (-56))
  /\ bind (float_of_string "1e23") int_of_float
     = Ok 99999999999999991611392
  /\ bind (float_of_string " 45.7 ") int_of_float = Ok 45
  /\ bind (float_of_string "-5") int_of_float = Ok (-5)
  /\ float_of_string "1.7976931348623157e308"
     = Ok (PyFinite false (2 ^ 53 - 1) 971)
  /\ float_of_string "1e999" = Ok (PyInf false)
  /\ float_of_string "-Infinity" = Ok (PyInf true)
  /\ bind (float_of_string "NaN") int_of_float = Raise ValueError
  /\ float_of_string "1__0" = Raise ValueError
  /\ float_of_string "soon" = Raise ValueError.
Proof. repeat split; vm_compute; reflexivity. Qed.

End FloatFacts.

(** ** Facts about the ledger *)

Module LedgerFacts.
Import Py Datetime CorsProxyServer Scenario.

(** The difference of two representable datetimes is below [2^59]
    microseconds. *)
Lemma in_range_diff a b :
  in_range a = true -> in_range b = true -> a - b < 2 ^ 59.
Proof.
  unfold in_range. rewrite !andb_true_iff, !Z.leb_le, !Z.ltb_lt.
  intros [Ha1 Ha2] [Hb1 Hb2].
  change (max_ordinal * us_per_day) with 315537897600000000 in *.
  change (2 ^ 59) with 576460752303423488. lia.
Qed.

(** [_active_backoff] on a live record: what it returns. *)
Lemma active_backoff_live now host (backoffs : gmap string BackoffRecord) r :
  backoffs !! host = Some r ->
  now < until r ->
  in_range now = true -> in_range (until r) = true ->
  exists w,
    _active_backoff now host backoffs = (backoffs, Ok (Some w))
    /\ (until r - now) / us_per_second <= w
         <= (until r - now) / us_per_second + 1
    /\ (until r - now < 2 ^ 34 * us_per_second ->
        w = (until r - now) / us_per_second).
Proof.
  intros Hr Hlt Hnow Hu. unfold _active_backoff. rewrite Hr.
  replace (until r <=? now) with false by (symmetry; apply Z.leb_gt; lia).
  destruct (FloatFacts.int_truediv_seconds (until r - now)) as (w & Hw & Hb & Hf).
  { split; [lia|]. apply in_range_diff; [done|].
    unfold in_range in *. apply andb_true_iff in Hnow as [? ?].
    apply andb_true_iff; split; [done|].
    apply Z.ltb_lt. apply andb_true_iff in Hu as [_ Hu].
    apply Z.ltb_lt in Hu. apply Z.leb_le in H. lia. }
  exists w. unfold total_seconds, us_per_second. rewrite Hw. cbn [bind]. done.
Qed.

(** What [_register_backoff] returns when it returns. *)
Lemma register_backoff_inv cfg now host status hdr
    (backoffs backoffs' : gmap string BackoffRecord) d :
  _register_backoff cfg now host status hdr backoffs = (backoffs', Ok d) ->
  exists retry_after,
    parse_retry_after hdr = Ok retry_after
    /\ d = match retry_after with
           | Some r => Z.max (base_backoff cfg host status backoffs).2 r
           | None => (base_backoff cfg host status backoffs).2
           end
    /\ fits now d = true
    /\ backoffs' =
         <[host := {| until := now + d * us_per_second;
                      attempts := (base_backoff cfg host status backoffs).1;
                      status := status |}]> backoffs.
Proof.
  unfold _register_backoff, fits.
  destruct (parse_retry_after hdr) as [ra|e]; [|discriminate].
  destruct (base_backoff cfg host status backoffs) as [a d0]. cbn [fst snd].
  set (dd := match ra with Some r => Z.max d0 r | None => d0 end).
  unfold timedelta_of_seconds, add.
  destruct (Z.abs (dd / 86400) <=? max_delta_days) eqn:E1; cbn [bind];
    [|discriminate].
  destruct (in_range (now + dd * us_per_second)) eqn:E2; [|discriminate].
  intros [= <- <-]. exists ra. rewrite E1. cbn [bind]. rewrite E2. done.
Qed.

(** When the header is readable and the deadline representable,
    [_register_backoff] returns. *)
Lemma register_backoff_ok cfg now host status hdr
    (backoffs : gmap string BackoffRecord) retry_after :
  parse_retry_after hdr = Ok retry_after ->
  let d := match retry_after with
           | Some r => Z.max (base_backoff cfg host status backoffs).2 r
           | None => (base_backoff cfg host status backoffs).2
           end in
  fits now d = true ->
  _register_backoff cfg now host status hdr backoffs =
    (<[host := {| until := now + d * us_per_second;
                  attempts := (base_backoff cfg host status backoffs).1;
                  status := status |}]> backoffs, Ok d).
Proof.
  intros Hp d. unfold _register_backoff, fits. rewrite Hp.
  destruct (base_backoff cfg host status backoffs) as [a d0]. cbn [fst snd] in *.
  fold d. unfold timedelta_of_seconds, add.
  destruct (Z.abs (d / 86400) <=? max_delta_days); cbn [bind is_ok];
    [|discriminate].
  destruct (in_range (now + d * us_per_second)); [|discriminate].
  done.
Qed.

(** An exception leaves the ledger as it was. *)
Lemma register_backoff_raise cfg now host status hdr
    (backoffs backoffs' : gmap string BackoffRecord) e :
  _register_backoff cfg now host status hdr backoffs = (backoffs', Raise e) ->
  backoffs' = backoffs.
Proof.
  unfold _register_backoff.
  destruct (parse_retry_after hdr) as [ra|]; [|by intros [= <-]].
  destruct (base_backoff cfg host status backoffs) as [a d0].
  destruct (bind _ _); [discriminate|]. by intros [= <-].
Qed.

(** *** [_active_backoff] *)

(** C1 (as amended).  [_active_backoff] on representable datetimes: with no
    record for the host it returns none and leaves the ledger alone; with a
    record whose [until] is not after [now] it deletes the record and
    returns none; otherwise it leaves the ledger alone and returns the
    remaining time cut down to whole seconds: a value that is never
    negative, that is at least 1 exactly when a full second remains, and
    that is [floor(until - now)] for windows below [2^34] seconds. *)
Theorem active_backoff_contract now host (backoffs : gmap string BackoffRecord) :
  in_range now = true ->
  (forall r, backoffs !! host = Some r -> in_range (until r) = true) ->
  (backoffs !! host = None ->
   _active_backoff now host backoffs = (backoffs, Ok None))
  /\ (forall r, backoffs !! host = Some r -> until r <= now ->
      _active_backoff now host backoffs = (delete host backoffs, Ok None))
  /\ (forall r, backoffs !! host = Some r -> now < until r ->
      exists w,
        _active_backoff now host backoffs = (backoffs, Ok (Some w))
        /\ 0 <= w
        /\ (1 <= w <-> us_per_second <= until r - now)
        /\ (until r - now < 2 ^ 34 * us_per_second ->
            w = (until r - now) / us_per_second)).
Proof.
  intros Hnow Hwf. split; [|split].
  - intros Hr. unfold _active_backoff. by rewrite Hr.
  - intros r Hr Hle. unfold _active_backoff. rewrite Hr.
    by replace (until r <=? now) with true by (symmetry; apply Z.leb_le; lia).
  - intros r Hr Hlt.
    destruct (active_backoff_live now host backoffs r Hr Hlt Hnow (Hwf r Hr))
      as (w & Hw & [Hlo Hhi] & Hfl).
    exists w. split; [done|].
    assert (Hus : us_per_second = 1000000) by reflexivity.
    assert (Hq : 0 <= (until r - now) / us_per_second)
      by (apply Z.div_pos; lia).
    split; [lia|]. split; [|done].
    split.
    + intros Hw1.
      destruct (Z.lt_ge_cases (until r - now) us_per_second) as [Hsmall|]; [|lia].
      assert (w = (until r - now) / us_per_second).
      { apply Hfl. rewrite Hus in *. change (2 ^ 34) with 17179869184. lia. }
      rewrite Z.div_small in * by lia. lia.
    + intros Hbig.
      assert (1 <= (until r - now) / us_per_second); [|lia].
      apply Z.div_le_lower_bound; lia.
Qed.

Lemma active_backoff_contract_witness :
  exists w,
    _active_backoff example_now "z" {[ "z" := example_record ]}
    = ({[ "z" := example_record ]}, Ok (Some w))
    /\ 0 <= w.
Proof.
  destruct (active_backoff_contract example_now "z" {[ "z" := example_record ]})
    as (_ & _ & H).
  - reflexivity.
  - intros r. rewrite lookup_singleton_eq. intros [= <-]. reflexivity.
  - destruct (H example_record) as (w & Hw & Hpos & _).
    + apply lookup_singleton_eq.
    + reflexivity.
    + exists w. split; assumption.
Defined.

(** C1 (as stated) fails.  With 1.5 seconds left [_active_backoff] returns 1
    where the ceiling is 2, and with half a second left it returns 0, which
    is neither the ceiling nor at least 1. *)
Lemma active_backoff_not_ceil :
  let backoffs : gmap string BackoffRecord := {[ "z" := example_record ]} in
  _active_backoff example_now "z" backoffs = (backoffs, Ok (Some 1))
  /\ checkActive_spec example_now "z" backoffs = (backoffs, Some 2)
  /\ _active_backoff (example_now + 1000000) "z" backoffs
     = (backoffs, Ok (Some 0))
  /\ checkActive_spec (example_now + 1000000) "z" backoffs
     = (backoffs, Some 1)
  /\ ~ (exists w, (_active_backoff (example_now + 1000000) "z" backoffs).2
                  = Ok (Some w) /\ 1 <= w).
Proof.
  cbv zeta.
  assert (H : _active_backoff (example_now + 1000000) "z"
                ({[ "z" := example_record ]} : gmap string BackoffRecord)
              = ({[ "z" := example_record ]}, Ok (Some 0))).
  { unfold _active_backoff. rewrite lookup_singleton_eq.
    vm_compute. reflexivity. }
  rewrite H. unfold _active_backoff, checkActive_spec.
  rewrite lookup_singleton_eq.
  repeat split; try (vm_compute; reflexivity).
  intros (w & [= <-] & Hw). lia.
Qed.

(** *** [_register_backoff] *)

(** A header that reads as an infinity is not ignored: [int] of the
    float raises [OverflowError], which the handler for [ValueError] lets
    through, and the call fails whatever the host, status and ledger. *)
Theorem register_backoff_infinite_header cfg now host status
    (backoffs : gmap string BackoffRecord) :
  _register_backoff cfg now host status (Some "inf") backoffs
  = (backoffs, Raise OverflowError)
  /\ parse_retry_after (Some "nan") = Ok None
  /\ parse_retry_after (Some "soon") = Ok None.
Proof.
  assert (H : parse_retry_after (Some "inf") = Raise OverflowError)
    by (vm_compute; reflexivity).
  unfold _register_backoff. rewrite H.
  repeat split; vm_compute; reflexivity.
Qed.

Lemma base_backoff_short cfg host status
    (backoffs : gmap string BackoffRecord) :
  status ∉ long_backoff_statuses cfg ->
  base_backoff cfg host status backoffs
  = ((prior_attempts host backoffs + 1)%nat,
     Z.min (backoff_base_seconds cfg * 2 ^ Z.of_nat (prior_attempts host backoffs))
           (backoff_max_seconds cfg)).
Proof.
  intros Hs. unfold base_backoff, prior_attempts.
  rewrite bool_decide_eq_false_2 by done.
  f_equal. f_equal. f_equal. f_equal. lia.
Qed.

Lemma base_backoff_long cfg host status
    (backoffs : gmap string BackoffRecord) :
  status ∈ long_backoff_statuses cfg ->
  base_backoff cfg host status backoffs = (1%nat, long_backoff_seconds cfg).
Proof.
  intros Hs. unfold base_backoff. by rewrite bool_decide_eq_true_2.
Qed.

(** A run of short-backoff failures that starts with [a] attempts on
    record: the delay of call [i] (from 0) is [min(base * 2^(a+i), max)]. *)
Lemma register_failures_from cfg host calls :
  forall (backoffs : gmap string BackoffRecord),
    (forall (i : nat) now status, calls !! i = Some (now, status) ->
       (status ∉ long_backoff_statuses cfg)
       /\ fits now (nth_delay_spec cfg (prior_attempts host backoffs + i + 1))
          = true) ->
    exists backoffs',
      register_failures cfg host calls backoffs =
        (backoffs',
         Ok (map (fun i => nth_delay_spec cfg (prior_attempts host backoffs + i + 1))
                 (seq 0 (length calls)))).
Proof.
  induction calls as [|[now status] calls IH]; intros backoffs Hcalls.
  - by exists backoffs.
  - destruct (Hcalls 0%nat now status eq_refl) as [Hshort Hfits].
    cbn [register_failures].
    pose proof (register_backoff_ok cfg now host status None backoffs None
                  eq_refl) as Hok.
    cbv zeta in Hok. rewrite base_backoff_short in Hok by done.
    cbn [fst snd] in Hok.
    assert (Hd : nth_delay_spec cfg (prior_attempts host backoffs + 0 + 1)
                 = Z.min (backoff_base_seconds cfg
                          * 2 ^ Z.of_nat (prior_attempts host backoffs))
                         (backoff_max_seconds cfg)).
    { unfold nth_delay_spec. do 3 f_equal. lia. }
    rewrite Hd in Hfits. rewrite (Hok Hfits). clear Hok.
    set (backoffs1 := <[host := _]> backoffs).
    assert (Hp : prior_attempts host backoffs1
                 = (prior_attempts host backoffs + 1)%nat).
    { unfold prior_attempts at 1, backoffs1. by rewrite lookup_insert_eq. }
    destruct (IH backoffs1) as [backoffs' Hrun].
    { intros i now' status' Hi. rewrite Hp.
      destruct (Hcalls (S i) now' status' Hi) as [? Hf]. split; [done|].
      by replace (prior_attempts host backoffs + 1 + i + 1)%nat
        with (prior_attempts host backoffs + S i + 1)%nat by lia. }
    rewrite Hrun. exists backoffs'. f_equal. f_equal.
    cbn [length seq map]. rewrite Hd. f_equal.
    rewrite <- seq_shift, map_map. apply map_ext. intros i.
    rewrite Hp. f_equal. lia.
Qed.

(** C4.  From a ledger with no record for the host, consecutive
    short-backoff failures with no [Retry-After] header (at any readings of
    the clock for which the deadlines are representable) all succeed, and
    the [N]th returns [min(base * 2^(N-1), max)]; with the default base 30
    and maximum 900, three consecutive 429s return 30, 60 and 120. *)
Theorem register_failures_exponential :
  (forall cfg host calls (backoffs : gmap string BackoffRecord),
     backoffs !! host = None ->
     (forall (i : nat) now status, calls !! i = Some (now, status) ->
        (status ∉ long_backoff_statuses cfg)
        /\ fits now (nth_delay_spec cfg (i + 1)) = true) ->
     exists backoffs' delays,
       register_failures cfg host calls backoffs = (backoffs', Ok delays)
       /\ length delays = length calls
       /\ forall N : nat, (1 <= N <= length calls)%nat ->
            delays !! (N - 1)%nat
            = Some (Z.min (backoff_base_seconds cfg * 2 ^ (Z.of_nat N - 1))
                          (backoff_max_seconds cfg)))
  /\ (forall host t1 t2 t3 (backoffs : gmap string BackoffRecord),
        backoffs !! host = None ->
        fits t1 30 = true -> fits t2 60 = true -> fits t3 120 = true ->
        exists backoffs',
          register_failures default_config host
            [(t1, 429); (t2, 429); (t3, 429)] backoffs
          = (backoffs', Ok [30; 60; 120])).
Proof.
  assert (General : forall cfg host calls (backoffs : gmap string BackoffRecord),
     backoffs !! host = None ->
     (forall (i : nat) now status, calls !! i = Some (now, status) ->
        (status ∉ long_backoff_statuses cfg)
        /\ fits now (nth_delay_spec cfg (i + 1)) = true) ->
     exists backoffs',
       register_failures cfg host calls backoffs
       = (backoffs',
          Ok (map (fun i : nat => nth_delay_spec cfg (i + 1))
                  (seq 0 (length calls))))).
  { intros cfg host calls backoffs Hnone Hcalls.
    assert (Hp : prior_attempts host backoffs = 0%nat)
      by (unfold prior_attempts; by rewrite Hnone).
    destruct (register_failures_from cfg host calls backoffs) as [b' Hrun].
    { intros i now status Hi. rewrite Hp. by apply Hcalls. }
    exists b'. rewrite Hrun, Hp. done. }
  split.
  - intros cfg host calls backoffs Hnone Hcalls.
    destruct (General cfg host calls backoffs Hnone Hcalls) as [b' Hrun].
    eexists b', _. split; [exact Hrun|].
    split; [by rewrite length_map, length_seq|].
    intros N HN. rewrite list_lookup_fmap, lookup_seq_lt by lia.
    cbn. unfold nth_delay_spec. do 4 f_equal. lia.
  - intros host t1 t2 t3 backoffs Hnone H1 H2 H3.
    destruct (General default_config host
                [(t1, 429); (t2, 429); (t3, 429)] backoffs Hnone)
      as [b' Hrun]; [|by exists b'].
    intros [|[|[|i]]] now status; cbn; intros [= <- <-]; (split; [|done]);
      by vm_compute.
Qed.

Lemma register_failures_exponential_witness :
  exists backoffs',
    register_failures default_config "x"
      [(example_now, 429); (example_now + 5000000, 429);
       (example_now + 9000000, 429)] ∅
    = (backoffs', Ok [30; 60; 120]).
Proof.
  destruct register_failures_exponential as [_ H].
  apply (H "x" example_now (example_now + 5000000) (example_now + 9000000) ∅);
    reflexivity.
Defined.

(** C5.  With a long-backoff status the attempt count is 1 and the delay
    computed is [long_backoff_seconds], whatever the ledger holds: when the
    call returns, the record it wrote has [attempts = 1] and the status,
    and the delay returned is [long_backoff_seconds], raised to the
    [Retry-After] value if that is larger; with no header the call returns
    [long_backoff_seconds] as soon as the deadline is representable. *)
Theorem register_backoff_long cfg now host status hdr
    (backoffs : gmap string BackoffRecord) :
  status ∈ long_backoff_statuses cfg ->
  base_backoff cfg host status backoffs = (1%nat, long_backoff_seconds cfg)
  /\ (forall backoffs' d,
        _register_backoff cfg now host status hdr backoffs = (backoffs', Ok d) ->
        backoffs' !! host
        = Some {| until := now + d * us_per_second; attempts := 1;
                  status := status |}
        /\ long_backoff_seconds cfg <= d
        /\ (parse_retry_after hdr = Ok None -> d = long_backoff_seconds cfg))
  /\ (fits now (long_backoff_seconds cfg) = true ->
      _register_backoff cfg now host status None backoffs
      = (<[host := {| until := now + long_backoff_seconds cfg * us_per_second;
                      attempts := 1; status := status |}]> backoffs,
         Ok (long_backoff_seconds cfg))).
Proof.
  intros Hlong. pose proof (base_backoff_long cfg host status backoffs Hlong) as Hb.
  split; [done|]. split.
  - intros backoffs' d Hrun.
    apply register_backoff_inv in Hrun as (ra & Hp & Hd & _ & ->).
    rewrite Hb in *. cbn [fst snd] in *.
    rewrite lookup_insert_eq. split; [done|].
    split; [destruct ra; lia|].
    intros Hnone. rewrite Hnone in Hp. by injection Hp as <-.
  - intros Hfits.
    pose proof (register_backoff_ok cfg now host status None backoffs None
                  eq_refl) as Hok.
    cbv zeta in Hok. rewrite Hb in Hok. by apply Hok.
Qed.

Lemma register_backoff_long_witness :
  _register_backoff default_config example_now "y" 404 None
    {[ "y" := example_record ]}
  = (<["y" := {| until := example_now + 86400 * us_per_second;
                 attempts := 1; status := 404 |}]> {[ "y" := example_record ]},
     Ok 86400).
Proof.
  apply (register_backoff_long default_config example_now "y" 404 None
           {[ "y" := example_record ]}).
  - vm_compute. reflexivity.
  - reflexivity.
Defined.

(** C6 (as amended).  When the [Retry-After] header reads as the whole
    number of seconds [r >= 0] (the value [int(float(header))] of the code,
    the parsed number with its fraction dropped), every
    delay that [_register_backoff] returns is the larger of the computed
    delay and [r], hence at least [r] and at least the computed delay; and
    the call does return it as soon as the deadline is representable. *)
Theorem register_backoff_retry_after cfg now host status hdr r
    (backoffs : gmap string BackoffRecord) :
  parse_retry_after hdr = Ok (Some r) ->
  0 <= r ->
  (forall backoffs' d,
     _register_backoff cfg now host status hdr backoffs = (backoffs', Ok d) ->
     d = Z.max (base_backoff cfg host status backoffs).2 r
     /\ r <= d
     /\ (base_backoff cfg host status backoffs).2 <= d)
  /\ (fits now (Z.max (base_backoff cfg host status backoffs).2 r) = true ->
      exists backoffs',
        _register_backoff cfg now host status hdr backoffs
        = (backoffs', Ok (Z.max (base_backoff cfg host status backoffs).2 r))).
Proof.
  intros Hp Hr. split.
  - intros backoffs' d Hrun.
    apply register_backoff_inv in Hrun as (ra & Hp' & Hd & _).
    rewrite Hp in Hp'. injection Hp' as <-. subst d. lia.
  - intros Hfits. eexists.
    by apply (register_backoff_ok cfg now host status hdr backoffs (Some r)).
Qed.

Lemma register_backoff_retry_after_witness :
  exists backoffs',
    _register_backoff default_config example_now "x" 429 (Some "120") ∅
    = (backoffs', Ok 120).
Proof.
  destruct (register_backoff_retry_after default_config example_now "x" 429
              (Some "120") 120 ∅) as [_ H];
    [vm_compute; reflexivity | lia |].
  apply H. vm_compute. reflexivity.
Defined.

(** The header counts in whole seconds: its fraction is dropped. *)
Example parse_retry_after_fraction :
  parse_retry_after (Some "45.7") = Ok (Some 45).
Proof. vm_compute. reflexivity. Qed.

(** Scenario B of the specification: a 404 and then a 429 from the same
    host give the delays 86400 and 60, the 429 counting as the second
    attempt. *)
Example register_failures_long_then_short :
  exists backoffs',
    register_failures default_config "y"
      [(example_now, 404); (example_now + 1000000, 429)] ∅
    = (backoffs', Ok [86400; 60]).
Proof. eexists. vm_compute. reflexivity. Qed.

(** The ledger stays one that Python can hold. *)
Lemma register_backoff_wf cfg now host status hdr
    (backoffs : gmap string BackoffRecord) :
  ledger_wf backoffs ->
  ledger_wf (_register_backoff cfg now host status hdr backoffs).1.
Proof.
  intros Hwf.
  destruct (_register_backoff cfg now host status hdr backoffs)
    as [b' [d|e]] eqn:Hrun; cbn [fst].
  - apply register_backoff_inv in Hrun as (ra & _ & _ & Hfits & ->).
    intros h r. rewrite lookup_insert_Some.
    intros [[_ <-]|[_ Hr]]; [|by apply (Hwf h)]. cbn [until attempts]. split.
    + unfold fits, timedelta_of_seconds, add in Hfits.
      destruct (Z.abs (d / 86400) <=? max_delta_days); [|discriminate].
      cbn [bind] in Hfits. by destruct (in_range (now + d * us_per_second)).
    + unfold base_backoff. case_bool_decide; cbn [fst]; lia.
  - by apply register_backoff_raise in Hrun as ->.
Qed.

Lemma active_backoff_wf now host (backoffs : gmap string BackoffRecord) :
  ledger_wf backoffs -> ledger_wf (_active_backoff now host backoffs).1.
Proof.
  intros Hwf. unfold _active_backoff.
  destruct (backoffs !! host) as [r|]; [|done].
  destruct (until r <=? now); cbn [fst]; [|done].
  intros h r'. rewrite lookup_delete_Some. intros [_ Hr]. by apply (Hwf h).
Qed.

Lemma clear_backoff_wf host (backoffs : gmap string BackoffRecord) :
  ledger_wf backoffs -> ledger_wf (_clear_backoff host backoffs).
Proof.
  intros Hwf h r. unfold _clear_backoff. rewrite lookup_delete_Some.
  intros [_ Hr]. by apply (Hwf h).
Qed.

(** *** [_clear_backoff] *)

(** C8.  Right after [_clear_backoff(host)], [_active_backoff(host)]
    returns none, at any reading of the clock; clearing a host that has no
    record changes nothing, and clearing twice is clearing once. *)
Theorem clear_backoff_inactive now host (backoffs : gmap string BackoffRecord) :
  _active_backoff now host (_clear_backoff host backoffs)
  = (_clear_backoff host backoffs, Ok None)
  /\ (backoffs !! host = None -> _clear_backoff host backoffs = backoffs)
  /\ _clear_backoff host (_clear_backoff host backoffs)
     = _clear_backoff host backoffs.
Proof.
  unfold _clear_backoff, _active_backoff. rewrite lookup_delete_eq.
  repeat split.
  - intros Hn. by apply delete_id.
  - apply delete_id, lookup_delete_eq.
Qed.

Lemma clear_backoff_inactive_witness :
  _clear_backoff "x" ({[ "y" := example_record ]} : gmap string BackoffRecord)
  = {[ "y" := example_record ]}.
Proof.
  apply (clear_backoff_inactive example_now "x" {[ "y" := example_record ]}).
  reflexivity.
Defined.

(** *** Frame *)

(** C10.  For distinct hosts [H] and [K], the ledger that
    [_active_backoff], [_register_backoff] or [_clear_backoff] leaves
    after running on [H] has the entry for [K] it had before, whether the
    operation returned or raised. *)
Theorem ledger_frame cfg now H K status hdr
    (backoffs : gmap string BackoffRecord) :
  H <> K ->
  (_active_backoff now H backoffs).1 !! K = backoffs !! K
  /\ (_register_backoff cfg now H status hdr backoffs).1 !! K = backoffs !! K
  /\ _clear_backoff H backoffs !! K = backoffs !! K.
Proof.
  intros Hne. repeat split.
  - unfold _active_backoff. destruct (backoffs !! H) as [r|]; [|done].
    destruct (until r <=? now); cbn [fst]; [|done].
    by apply lookup_delete_ne.
  - destruct (_register_backoff cfg now H status hdr backoffs)
      as [b' [d|e]] eqn:Hrun; cbn [fst].
    + apply register_backoff_inv in Hrun as (_ & _ & _ & _ & ->).
      by apply lookup_insert_ne.
    + by apply register_backoff_raise in Hrun as ->.
  - by apply lookup_delete_ne.
Qed.

Lemma ledger_frame_witness :
  (_register_backoff default_config example_now "x" 429 None
     {[ "y" := example_record ]}).1 !! "y"
  = ({[ "y" := example_record ]} : gmap string BackoffRecord) !! "y".
Proof.
  apply (ledger_frame default_config example_now "x" "y" 429 None
           {[ "y" := example_record ]}).
  discriminate.
Defined.

End LedgerFacts.

(** ** Facts about the validator and the forwarder *)

Module ForwarderFacts.
Import Py Datetime Httpx CorsProxyServer Scenario.

(** *** [_parse_target] *)

(** C7.  The three outcomes of [_parse_target], for any URL parser: it
    returns [str(url)] for a non-empty input that parses with scheme http
    or https and a non-empty host; it raises the 400 [HTTPException] for
    the empty input and for an input that parses otherwise; and where the
    parser itself raises [InvalidURL], that exception leaves
    [_parse_target] in place of a 400, as for a URL whose port is not a
    number. *)
Theorem parse_target_outcomes :
  (forall (httpx_URL : string -> string + URL) raw_url,
     match _parse_target httpx_URL raw_url with
     | Ok target =>
         raw_url <> ""
         /\ exists u, httpx_URL raw_url = inr u
              /\ (scheme u = "http" \/ scheme u = "https")
              /\ host u <> ""
              /\ target = url_str u
     | Raise (HTTPException code _ _) =>
         code = 400
         /\ (raw_url = ""
             \/ exists u, httpx_URL raw_url = inr u
                  /\ ~ ((scheme u = "http" \/ scheme u = "https")
                        /\ host u <> ""))
     | Raise (InvalidURL msg) => raw_url <> "" /\ httpx_URL raw_url = inl msg
     | Raise _ => False
     end)
  /\ _parse_target HttpxModel.URL_of_string "http://example.com:abc/"
     = Raise (InvalidURL "Invalid port: 'abc'").
Proof.
  split; [|vm_compute; reflexivity].
  intros httpx_URL raw_url. unfold _parse_target, parse_URL.
  case_bool_decide as Hempty; [by auto|].
  destruct (httpx_URL raw_url) as [msg|u]; cbn [bind]; [done|].
  case_bool_decide as Hscheme; cbn [negb orb].
  - case_bool_decide as Hhost.
    + split; [done|]. right. exists u. split; [done|]. tauto.
    + split; [done|]. exists u. done.
  - split; [done|]. right. exists u. split; [done|]. tauto.
Qed.

(** The inputs of the scenarios of the specification. *)
Example parse_target_scenarios :
  _parse_target HttpxModel.URL_of_string ""
  = Raise (HTTPException 400 "Missing url parameter" [])
  /\ _parse_target HttpxModel.URL_of_string "ftp://host/file"
     = Raise (HTTPException 400
                "Only absolute http(s) URLs with a host are allowed" [])
  /\ _parse_target HttpxModel.URL_of_string example_url = Ok example_url
  /\ _host_key HttpxModel.URL_of_string example_url = Ok "example.com".
Proof. repeat split; vm_compute; reflexivity. Qed.

(** *** [proxy_raw] under a backoff *)

Lemma set_backoffs_id s : set_backoffs (backoffs s) s = s.
Proof. by destruct s. Qed.

(** With a full second or more left on the record of the target host,
    [proxy_raw] raises the 429 with the remaining whole seconds and leaves
    the server, the log of upstream requests included, as it was. *)
Lemma proxy_raw_throttled (httpx_URL : string -> string + URL) cfg
    now_check now_register request_headers url s target host_key r :
  _parse_target httpx_URL url = Ok target ->
  _host_key httpx_URL target = Ok host_key ->
  backoffs s !! host_key = Some r ->
  in_range now_check = true -> in_range (until r) = true ->
  now_check + us_per_second <= until r ->
  exists w,
    proxy_raw httpx_URL cfg now_check now_register request_headers url s
    = (s, Raise (HTTPException 429 "Backoff in effect for upstream host"
                   [("Retry-After", str_of_int w)]))
    /\ 1 <= w
    /\ (until r - now_check < 2 ^ 34 * us_per_second ->
        w = (until r - now_check) / us_per_second).
Proof.
  intros Ht Hh Hr Hnow Hu Hleft.
  assert (Hus : us_per_second = 1000000) by reflexivity.
  destruct (LedgerFacts.active_backoff_live now_check host_key (backoffs s) r)
    as (w & Hw & [Hlo _] & Hfl); [done|lia|done|done|].
  assert (1 <= w).
  { assert (1 <= (until r - now_check) / us_per_second); [|lia].
    apply Z.div_le_lower_bound; lia. }
  exists w. split; [|done].
  unfold proxy_raw, mbind, lift, on_backoffs, raise.
  rewrite Ht, Hh, Hw, set_backoffs_id.
  by replace (w =? 0) with false by (symmetry; apply Z.eqb_neq; lia).
Qed.

(** C2.  A record with half a second left does not stop the request:
    [_active_backoff] returns 0, [if wait:] takes it for no backoff, and
    [proxy_raw] sends the request upstream, returns the upstream answer
    and, the answer being a 200, clears the record. *)
Theorem proxy_raw_subsecond_backoff :
  let now := example_now + 1000000 in
  let run :=
    proxy_raw HttpxModel.URL_of_string default_config now (now + 200000)
      [] example_url example_server in
  backoffs example_server !! "example.com" = Some example_record
  /\ now < until example_record
  /\ (exists resp, run.2 = Ok resp /\ resp_status_code resp = 200)
  /\ length (sent example_server) = 0%nat
  /\ (exists request, sent run.1 = [(example_url, request)])
  /\ backoffs run.1 = ∅.
Proof.
  cbv zeta. split; [reflexivity|]. split; [reflexivity|].
  split; [eexists; split; vm_compute; reflexivity|].
  split; [reflexivity|].
  split; [eexists; vm_compute; reflexivity|].
  vm_compute. reflexivity.
Qed.

(** *** The headers of the response *)

Lemma lower_ascii_idemp c : lower_ascii (lower_ascii c) = lower_ascii c.
Proof. destruct c as [[] [] [] [] [] [] [] []]; reflexivity. Qed.

Lemma lower_idemp s : lower (lower s) = lower s.
Proof.
  induction s as [|c s IH]; [done|].
  cbn [lower]. by rewrite lower_ascii_idemp, IH.
Qed.

Lemma header_values_cons name k v h :
  header_values name ((k, v) :: h)
  = if decide (lower k = name) then v :: header_values name h
    else header_values name h.
Proof.
  unfold header_values. rewrite filter_cons. cbn [fst].
  by destruct (decide (lower k = name)).
Qed.

(** [Headers.items()], name by name. *)
Lemma items_lookup h name :
  items h !! name = join_values None (header_values name h).
Proof.
  unfold items.
  change (@None string) with ((∅ : gmap string string) !! name).
  generalize (∅ : gmap string string).
  induction h as [|[k v] h IH]; intros acc; [done|].
  cbn [foldl fst snd]. rewrite IH, header_values_cons.
  destruct (decide (lower k = name)) as [<-|Hne].
  - cbn [join_values]. destruct (acc !! lower k); by rewrite lookup_insert_eq.
  - destruct (acc !! lower k); by rewrite lookup_insert_ne.
Qed.



(** The names that [Headers.items()] yields are in lower case. *)
Lemma items_lower h k v : items h !! k = Some v -> lower k = k.
Proof.
  rewrite items_lookup. unfold header_values.
  destruct (filter _ h) as [|[k' v'] l] eqn:E; [done|]. intros _.
  assert (Hin : (k', v') ∈ filter (fun kv : string * string => lower kv.1 = k) h)
    by (rewrite E; left).
  apply list_elem_of_filter in Hin as [Hk _]. cbn in Hk.
  by rewrite <- Hk, lower_idemp.
Qed.

Lemma sanitize_headers_lookup h k v :
  sanitize_headers h !! k = Some v <->
  items h !! k = Some v
  /\ (lower k ∉ HOP_BY_HOP_HEADERS)
  /\ k <> "content-length" /\ k <> "content-encoding".
Proof.
  unfold sanitize_headers.
  rewrite !lookup_delete_Some, map_lookup_filter_Some. cbn [fst].
  intuition congruence.
Qed.







End ForwarderFacts.

(** ** More on the ledger *)

Module LedgerMore.
Import Py Datetime CorsProxyServer Scenario Routes.

Lemma float_of_string_raises text e :
  float_of_string text = Raise e -> e = ValueError.
Proof.
  unfold float_of_string.
  destruct (sign _) as [neg body].
  repeat case_bool_decide; try discriminate.
  destruct (number body) as [[[v k] rest]|]; [|by intros [= <-]].
  destruct (exponent rest); [discriminate|by intros [= <-]].
Qed.

Lemma parse_retry_after_raises hdr e :
  parse_retry_after hdr = Raise e -> e = OverflowError.
Proof.
  unfold parse_retry_after. destruct hdr as [h|]; [|discriminate].
  case_bool_decide; [discriminate|].
  destruct (float_of_string h) as [x|e'] eqn:E; cbn [bind].
  - destruct x as [|neg|neg m ex]; cbn; [discriminate| |discriminate].
    by intros [= <-].
  - apply float_of_string_raises in E as ->. cbn. discriminate.
Qed.

Lemma register_backoff_raises_overflow cfg now host status hdr
    (backoffs backoffs' : gmap string BackoffRecord) e :
  _register_backoff cfg now host status hdr backoffs = (backoffs', Raise e) ->
  e = OverflowError.
Proof.
  unfold _register_backoff.
  destruct (parse_retry_after hdr) as [ra|e'] eqn:Hp.
  - destruct (base_backoff cfg host status backoffs) as [a d0].
    unfold timedelta_of_seconds, add.
    destruct (Z.abs (_ / 86400) <=? max_delta_days); cbn [bind];
      [|by intros [= _ <-]].
    destruct (in_range _); [discriminate|by intros [= _ <-]].
  - intros [= _ <-]. by eapply parse_retry_after_raises.
Qed.

(** X1.  [_register_backoff] fails in one way only: when it raises, the
    exception is [OverflowError] (an infinite header value, or a deadline
    that is no [datetime]) and the ledger is as it was. *)
Theorem register_backoff_failure cfg now host status hdr
    (backoffs backoffs' : gmap string BackoffRecord) e :
  _register_backoff cfg now host status hdr backoffs = (backoffs', Raise e) ->
  e = OverflowError /\ backoffs' = backoffs.
Proof.
  intros Hrun. split.
  - by eapply register_backoff_raises_overflow.
  - by eapply LedgerFacts.register_backoff_raise.
Qed.

Lemma register_backoff_failure_witness :
  _register_backoff default_config example_now "x" 429 (Some "1e20") ∅
  = (∅, Raise OverflowError)
  /\ OverflowError = OverflowError
  /\ (∅ : gmap string BackoffRecord) = ∅.
Proof.
  split; [vm_compute; reflexivity|].
  apply (register_backoff_failure default_config example_now "x" 429
           (Some "1e20") ∅ ∅ OverflowError).
  vm_compute. reflexivity.
Defined.

(** X2.  Register, then ask.  After [_register_backoff] has returned the
    delay [d] at the reading [now]: asked at that same reading, with
    [1 <= d < 2^34], [_active_backoff] answers [d] and keeps the record;
    asked at the deadline or later, it answers none and deletes the
    record. *)
Theorem register_then_active cfg now host status hdr
    (backoffs backoffs' : gmap string BackoffRecord) d :
  in_range now = true ->
  _register_backoff cfg now host status hdr backoffs = (backoffs', Ok d) ->
  (1 <= d < 2 ^ 34 ->
   _active_backoff now host backoffs' = (backoffs', Ok (Some d)))
  /\ (forall later, now + d * us_per_second <= later ->
      _active_backoff later host backoffs'
      = (delete host backoffs', Ok None)).
Proof.
  intros Hnow Hrun.
  apply LedgerFacts.register_backoff_inv in Hrun as (ra & _ & _ & Hfits & ->).
  set (r := {| until := now + d * us_per_second;
               attempts := (base_backoff cfg host status backoffs).1;
               status := status |}).
  assert (Hu : in_range (until r) = true).
  { unfold fits, timedelta_of_seconds, add in Hfits. cbn [until r].
    destruct (Z.abs (d / 86400) <=? max_delta_days); [|discriminate].
    cbn [bind] in Hfits. by destruct (in_range (now + d * us_per_second)). }
  assert (Hus : us_per_second = 1000000) by reflexivity.
  split.
  - intros [Hd1 Hd2].
    destruct (LedgerFacts.active_backoff_live now host (<[host := r]> backoffs) r)
      as (w & Hw & _ & Hfl); [apply lookup_insert_eq|cbn; lia|done|done|].
    rewrite Hw. do 3 f_equal. rewrite Hfl.
    + cbn [until r]. replace (now + d * us_per_second - now)
        with (d * us_per_second) by lia.
      apply Z.div_mul. lia.
    + cbn [until r]. rewrite Hus.
      assert (d * 1000000 < 2 ^ 34 * 1000000); [|lia].
      apply Z.mul_lt_mono_pos_r; lia.
  - intros later Hlater. unfold _active_backoff.
    rewrite lookup_insert_eq. cbn [until r].
    by replace (now + d * us_per_second <=? later) with true
      by (symmetry; apply Z.leb_le; lia).
Qed.

Lemma register_then_active_witness :
  let backoffs' :=
    (_register_backoff default_config example_now "x" 429 None ∅).1 in
  _active_backoff example_now "x" backoffs' = (backoffs', Ok (Some 30)).
Proof.
  cbv zeta.
  destruct (register_then_active default_config example_now "x" 429 None ∅
              (_register_backoff default_config example_now "x" 429 None ∅).1
              30) as [H _]; [reflexivity|vm_compute; reflexivity|].
  apply H. split; [lia|reflexivity].
Defined.

(** X3.  Lazy expiry resets the count.  Once [_active_backoff] has
    answered none for a host, the ledger it leaves has no record for that
    host, it goes on answering none at every reading, and the next
    short-backoff failure is attempt 1 with the delay [min(base, max)],
    however many attempts the expired record had. *)
Theorem inactive_then_first_attempt cfg now host status
    (backoffs backoffs' : gmap string BackoffRecord) :
  _active_backoff now host backoffs = (backoffs', Ok None) ->
  status ∉ long_backoff_statuses cfg ->
  backoffs' !! host = None
  /\ (forall later,
        _active_backoff later host backoffs' = (backoffs', Ok None))
  /\ base_backoff cfg host status backoffs'
     = (1%nat, Z.min (backoff_base_seconds cfg) (backoff_max_seconds cfg)).
Proof.
  intros Hrun Hshort.
  assert (Hnone : backoffs' !! host = None).
  { revert Hrun. unfold _active_backoff.
    destruct (backoffs !! host) as [r|] eqn:Hr.
    - destruct (until r <=? now).
      + intros [= <-]. apply lookup_delete_eq.
      + destruct (int_of_float _); discriminate.
    - by intros [= <-]. }
  split; [done|]. split.
  - intros later. unfold _active_backoff. by rewrite Hnone.
  - rewrite LedgerFacts.base_backoff_short by done.
    unfold prior_attempts. rewrite Hnone. cbn.
    by rewrite Z.mul_1_r.
Qed.

Lemma inactive_then_first_attempt_witness :
  base_backoff default_config "z" 429
    (delete "z" ({[ "z" := example_record ]} : gmap string BackoffRecord))
  = (1%nat, Z.min 30 900).
Proof.
  apply (inactive_then_first_attempt default_config (example_now + 2000000)
           "z" 429 {[ "z" := example_record ]}).
  - unfold _active_backoff. rewrite lookup_singleton_eq. reflexivity.
  - by vm_compute.
Defined.

(** X4.  The short-backoff delay is capped and, for a base that is not
    negative, grows with the attempts on record: it is never above
    [backoff_max_seconds], never below [min(base, max)], and a ledger with
    more attempts for the host gives a delay at least as long. *)
Theorem short_delay_bounds cfg host status
    (backoffs backoffs2 : gmap string BackoffRecord) :
  status ∉ long_backoff_statuses cfg ->
  0 <= backoff_base_seconds cfg ->
  (prior_attempts host backoffs <= prior_attempts host backoffs2)%nat ->
  (base_backoff cfg host status backoffs).2 <= backoff_max_seconds cfg
  /\ Z.min (backoff_base_seconds cfg) (backoff_max_seconds cfg)
     <= (base_backoff cfg host status backoffs).2
  /\ (base_backoff cfg host status backoffs).2
     <= (base_backoff cfg host status backoffs2).2.
Proof.
  intros Hshort Hbase Hle.
  rewrite !LedgerFacts.base_backoff_short by done. cbn [snd].
  set (a := prior_attempts host backoffs) in *.
  set (a2 := prior_attempts host backoffs2) in *.
  assert (H1 : 1 <= 2 ^ Z.of_nat a) by (apply Z.pow_le_mono_r with (b := 0); lia).
  assert (H2 : 2 ^ Z.of_nat a <= 2 ^ Z.of_nat a2)
    by (apply Z.pow_le_mono_r; lia).
  split; [lia|]. split; nia.
Qed.

Lemma short_delay_bounds_witness :
  (base_backoff default_config "z" 429 ∅).2 <= 900
  /\ Z.min 30 900 <= (base_backoff default_config "z" 429 ∅).2
  /\ (base_backoff default_config "z" 429 ∅).2
     <= (base_backoff default_config "z" 429 {[ "z" := example_record ]}).2.
Proof.
  apply (short_delay_bounds default_config "z" 429 ∅
           {[ "z" := example_record ]}).
  - by vm_compute.
  - vm_compute. discriminate.
  - vm_compute. lia.
Defined.

(** X5.  Asking twice is asking once: a second [_active_backoff] at the
    same reading gives the same answer and changes nothing more; and the
    ledger that [_active_backoff] leaves is a part of the one it found, so
    asking never adds or alters a record. *)
Theorem active_backoff_idempotent now host
    (backoffs : gmap string BackoffRecord) :
  _active_backoff now host (_active_backoff now host backoffs).1
  = _active_backoff now host backoffs
  /\ (_active_backoff now host backoffs).1 ⊆ backoffs.
Proof.
  unfold _active_backoff.
  destruct (backoffs !! host) as [r|] eqn:Hr; cbn [fst].
  - destruct (until r <=? now) eqn:Hexp; cbn [fst].
    + rewrite lookup_delete_eq.
      split; [done|]. apply delete_subseteq.
    + by rewrite Hr, Hexp.
  - by rewrite Hr.
Qed.

(** X6.  The ledger stays one that Python can hold under every ledger
    operation: if every record has a representable deadline and at least
    one attempt, so has every record after [_active_backoff],
    [_register_backoff] (returning or raising) and [_clear_backoff]. *)
Theorem ledger_operations_wf cfg now host status hdr
    (backoffs : gmap string BackoffRecord) :
  ledger_wf backoffs ->
  ledger_wf (_active_backoff now host backoffs).1
  /\ ledger_wf (_register_backoff cfg now host status hdr backoffs).1
  /\ ledger_wf (_clear_backoff host backoffs).
Proof.
  intros Hwf. split; [|split].
  - by apply LedgerFacts.active_backoff_wf.
  - by apply LedgerFacts.register_backoff_wf.
  - by apply LedgerFacts.clear_backoff_wf.
Qed.

Lemma ledger_operations_wf_witness :
  ledger_wf (_register_backoff default_config example_now "x" 429 None ∅).1.
Proof.
  apply (ledger_operations_wf default_config example_now "x" 429 None ∅).
  intros h r Hr. by rewrite lookup_empty in Hr.
Defined.

(** A whole number below [2^53] is a binary64 value. *)
Lemma round64_int n :
  0 <= n < 2 ^ 53 -> int_of_float (round64 false n 1) = Ok n.
Proof.
  intros [Hn0 Hn]. unfold round64.
  destruct (Z.eqb_spec n 0) as [->|Hne]; [done|].
  assert (Hpos : 0 < n) by lia.
  assert (Hl0 : 0 <= Z.log2 n) by apply Z.log2_nonneg.
  assert (Hl : Z.log2 n < 53) by (apply Z.log2_lt_pow2; lia).
  assert (Hfl : floor_log2_ratio n 1 = Z.log2 n).
  { unfold floor_log2_ratio. change (Z.log2 1) with 0.
    rewrite Z.sub_0_r, Z.max_l, Z.max_r, Z.mul_1_l by lia.
    change (2 ^ 0) with 1. rewrite Z.mul_1_r.
    destruct (Z.leb_spec (2 ^ Z.log2 n) n) as [|Hbad]; [done|].
    pose proof (Z.log2_spec n Hpos). lia. }
  cbv zeta. rewrite Hfl.
  rewrite (Z.max_l (Z.log2 n - 52)) by lia.
  rewrite (Z.max_l (- (Z.log2 n - 52))) by lia.
  rewrite (Z.max_r (Z.log2 n - 52) 0) by lia.
  change (2 ^ 0) with 1. rewrite !Z.mul_1_r.
  set (S := 2 ^ (- (Z.log2 n - 52))).
  assert (HS1 : 1 <= S) by (apply Z.pow_le_mono_r with (b := 0); lia).
  assert (HS2 : S <= 2 ^ 52) by (apply Z.pow_le_mono_r; lia).
  assert (Hm : round_half_even (n * S) 1 = n * S).
  { unfold round_half_even. rewrite Z.mod_1_r, Z.div_1_r. done. }
  rewrite Hm.
  replace (2 ^ 1024 <=? n * S) with false.
  2:{ symmetry. apply Z.leb_gt.
      assert (n * S <= 2 ^ 53 * 2 ^ 52) by nia.
      eapply Z.le_lt_trans; [eassumption|]. vm_compute. reflexivity. }
  cbn [int_of_float]. f_equal.
  destruct (Z.leb_spec 0 (Z.log2 n - 52)) as [Hge|Hlt].
  - assert (E : Z.log2 n - 52 = 0) by lia.
    unfold S. rewrite E. change (2 ^ 0) with 1. change (2 ^ (- 0)) with 1. lia.
  - fold S. apply Z.div_mul. lia.
Qed.

Lemma is_digit_plain c :
  is_digit c = true ->
  is_space c = false /\ lower_ascii c = c
  /\ Ascii.eqb c "-" = false /\ Ascii.eqb c "+" = false
  /\ Ascii.eqb c "_" = false /\ Ascii.eqb c "." = false
  /\ c <> "i"%char /\ c <> "n"%char.
Proof.
  destruct c as [[] [] [] [] [] [] [] []]; vm_compute; try discriminate;
    intros _; repeat split; discriminate.
Qed.

Lemma digits_tail_digits digits : forall v k,
  Forall (fun c => is_digit c = true) digits ->
  digits_tail digits v k
  = (foldl (fun v c => 10 * v + digit_value c) v digits,
     k + Z.of_nat (length digits), []).
Proof.
  induction digits as [|c digits IH]; intros v k Hd.
  - cbn. by rewrite Z.add_0_r.
  - apply Forall_cons in Hd as [Hc Hd]. cbn [digits_tail]. rewrite Hc.
    rewrite IH by done. cbn [foldl length]. do 2 f_equal. lia.
Qed.

Lemma decimal_digits_nonneg digits : forall v,
  Forall (fun c => is_digit c = true) digits -> 0 <= v ->
  0 <= foldl (fun v c => 10 * v + digit_value c) v digits.
Proof.
  induction digits as [|c digits IH]; intros v Hd Hv; [done|].
  apply Forall_cons in Hd as [Hc Hd]. cbn [foldl]. apply IH; [done|].
  unfold is_digit in Hc. apply andb_true_iff in Hc as [H1 _].
  apply Z.leb_le in H1. unfold digit_value. lia.
Qed.

Lemma lstrip_digit c digits :
  is_digit c = true -> lstrip (c :: digits) = c :: digits.
Proof.
  intros Hc. cbn. by destruct (is_digit_plain c Hc) as [-> _].
Qed.

Lemma strip_digits digits :
  Forall (fun c => is_digit c = true) digits -> strip digits = digits.
Proof.
  intros Hd. unfold strip.
  assert (Hl : forall l, Forall (fun c => is_digit c = true) l -> lstrip l = l).
  { intros [|c l] Hl; [done|]. apply Forall_cons in Hl as [Hc _].
    by apply lstrip_digit. }
  rewrite (Hl digits Hd).
  rewrite Hl by (by apply Forall_reverse).
  apply reverse_involutive.
Qed.

(** X7.  A header of decimal digits is read as the number it writes.  For
    a non-empty run of digits whose value is below [2^53],
    [parse_retry_after] gives exactly that value: the detour through a
    float loses nothing. *)
Theorem parse_retry_after_digits (digits : list ascii) :
  digits <> [] ->
  Forall (fun c => is_digit c = true) digits ->
  decimal_value digits < 2 ^ 53 ->
  parse_retry_after (Some (String.string_of_list_ascii digits))
  = Ok (Some (decimal_value digits)).
Proof.
  intros Hne Hd Hv. destruct digits as [|c digits]; [done|].
  pose proof Hd as Hd'. apply Forall_cons in Hd' as [Hc Hds].
  destruct (is_digit_plain c Hc)
    as (Hsp & Hlow & Hminus & Hplus & Hunder & Hdot & Hi & Hn).
  assert (Hval : 0 <= decimal_value (c :: digits))
    by (by apply decimal_digits_nonneg).
  unfold parse_retry_after. rewrite bool_decide_eq_false_2 by done.
  unfold float_of_string.
  rewrite String.list_ascii_of_string_of_list_ascii, strip_digits by done.
  cbn [sign]. rewrite Hminus, Hplus.
  rewrite bool_decide_eq_false_2.
  2:{ cbn [String.string_of_list_ascii lower]. rewrite Hlow.
      intros [E|E]; injection E as E _; done. }
  rewrite bool_decide_eq_false_2.
  2:{ cbn [String.string_of_list_ascii lower]. rewrite Hlow.
      intros E; injection E as E _; done. }
  unfold number, digitpart. rewrite Hc.
  rewrite digits_tail_digits by done. cbn [exponent].
  change (0 - 0) with 0. cbn [Z.leb Z.compare]. change (10 ^ 0) with 1.
  rewrite Z.mul_1_r.
  change (foldl (fun v c0 => 10 * v + digit_value c0)
                (10 * 0 + digit_value c) digits)
    with (decimal_value (c :: digits)).
  cbn [bind]. rewrite round64_int by lia. done.
Qed.

Lemma parse_retry_after_digits_witness :
  parse_retry_after (Some "007200") = Ok (Some 7200).
Proof.
  apply (parse_retry_after_digits
           ["0"; "0"; "7"; "2"; "0"; "0"]%char).
  - discriminate.
  - repeat constructor.
  - vm_compute. reflexivity.
Defined.

End LedgerMore.

(** ** More on the forwarder *)

Module ForwarderMore.
Import Py Datetime Httpx CorsProxyServer Scenario Routes.

Lemma fits_in_range now d :
  fits now d = true -> in_range (now + d * us_per_second) = true.
Proof.
  unfold fits, timedelta_of_seconds, add.
  destruct (Z.abs (d / 86400) <=? max_delta_days); [|discriminate].
  cbn [bind]. by destruct (in_range (now + d * us_per_second)).
Qed.

Lemma active_backoff_ledger now host (backoffs : gmap string BackoffRecord) :
  (_active_backoff now host backoffs).1 = backoffs
  \/ (_active_backoff now host backoffs).1 = delete host backoffs.
Proof.
  unfold _active_backoff. destruct (backoffs !! host) as [r|]; [|by left].
  destruct (until r <=? now); [by right|by left].
Qed.

(** No upstream header reaches the ledger: the sanitised headers have no
    item named [Retry-After] in that spelling. *)
Lemma sanitize_headers_retry_after h :
  sanitize_headers h !! "Retry-After" = None.
Proof.
  destruct (sanitize_headers h !! "Retry-After") as [v|] eqn:E; [|done].
  apply ForwarderFacts.sanitize_headers_lookup in E as [E _].
  apply ForwarderFacts.items_lower in E. discriminate E.
Qed.

(** Past the gate, [proxy_raw] is the upstream part run on the ledger that
    the check left. *)
Lemma proxy_raw_gate (httpx_URL : string -> string + URL) cfg
    now_check now_register request_headers url s target host_key b1 :
  passes_gate httpx_URL now_check url s target host_key b1 ->
  proxy_raw httpx_URL cfg now_check now_register request_headers url s
  = forward_upstream cfg now_register request_headers target host_key
      (set_backoffs b1 s).
Proof.
  intros (Ht & Hh & wait & Hw & Hwait).
  unfold proxy_raw, mbind, lift, on_backoffs.
  rewrite Ht, Hh, Hw. by destruct Hwait as [-> | ->].
Qed.

(** The upstream part when the client cannot reach the upstream. *)
Lemma forward_upstream_unreachable cfg now_register request_headers
    target host_key s client_get exc :
  client s = Some client_get ->
  client_get target (outbound_request request_headers target) = inl exc ->
  forward_upstream cfg now_register request_headers target host_key s
  = let r := _register_backoff cfg now_register host_key 503 None
               (backoffs s) in
    ({| backoffs := r.1; client := client s;
        sent := sent s ++ [(target, outbound_request request_headers target)] |},
     match r.2 with
     | Ok delay =>
         Raise (HTTPException 502 ("Upstream connection failed: " +:+ exc)
                  [("Retry-After", str_of_int delay)])
     | Raise e => Raise e
     end).
Proof.
  intros Hc Hget. unfold forward_upstream. rewrite Hc.
  unfold outbound_request in Hget. rewrite Hget.
  unfold mbind, on_backoffs, raise, set_backoffs. cbn [backoffs client sent].
  by destruct (_register_backoff _ _ _ _ _ _) as [b [d|e]].
Qed.

(** The upstream part when the upstream answers. *)
Lemma forward_upstream_answer cfg now_register request_headers
    target host_key s client_get upstream :
  client s = Some client_get ->
  client_get target (outbound_request request_headers target) = inr upstream ->
  forward_upstream cfg now_register request_headers target host_key s
  = let sent' :=
      sent s ++ [(target, outbound_request request_headers target)] in
    let resp hs :=
      {| resp_content := content upstream;
         resp_status_code := status_code upstream;
         resp_headers := hs;
         resp_media_type := get (headers upstream) "content-type" |} in
    if (status_code upstream =? 429)
       || bool_decide (status_code upstream ∈ long_backoff_statuses cfg)
    then
      let r := _register_backoff cfg now_register host_key
                 (status_code upstream) None (backoffs s) in
      ({| backoffs := r.1; client := client s; sent := sent' |},
       match r.2 with
       | Ok delay =>
           Ok (resp (<["Retry-After" := str_of_int delay]>
                       (sanitize_headers (headers upstream))))
       | Raise e => Raise e
       end)
    else
      ({| backoffs := _clear_backoff host_key (backoffs s);
          client := client s; sent := sent' |},
       Ok (resp (sanitize_headers (headers upstream)))).
Proof.
  intros Hc Hget. unfold forward_upstream. rewrite Hc.
  unfold outbound_request in Hget. rewrite Hget. cbv zeta.
  rewrite sanitize_headers_retry_after.
  destruct (_ || _); [|done].
  unfold mbind, on_backoffs, ret, set_backoffs. cbn [backoffs client sent].
  by destruct (_register_backoff _ _ _ _ _ _) as [b [d|e]].
Qed.

(** After a record with a deadline at least a second away has been
    written for the host of a URL, a request for that URL is turned away
    with a 429 and the server is left as it is. *)
Lemma throttled_after_insert (httpx_URL : string -> string + URL) cfg
    now_check now_register request_headers url target host_key r s :
  _parse_target httpx_URL url = Ok target ->
  _host_key httpx_URL target = Ok host_key ->
  backoffs s !! host_key = Some r ->
  in_range (until r) = true ->
  in_range now_check = true ->
  now_check + us_per_second <= until r ->
  exists w,
    proxy_raw httpx_URL cfg now_check now_register request_headers url s
    = (s, Raise (HTTPException 429 "Backoff in effect for upstream host"
                   [("Retry-After", str_of_int w)]))
    /\ 1 <= w.
Proof.
  intros Ht Hh Hr Hu Hnow Hleft.
  destruct (ForwarderFacts.proxy_raw_throttled httpx_URL cfg now_check
              now_register request_headers url s target host_key r)
    as (w & Hrun & Hw & _); try done.
  by exists w.
Qed.

(** X8.  A request that fails validation stops there: when
    [_parse_target] raises, or [_host_key] raises on its result,
    [proxy_raw] raises the same exception and the ledger, the client and
    the list of upstream requests are as before. *)
Theorem proxy_raw_invalid_request (httpx_URL : string -> string + URL) cfg
    now_check now_register request_headers url s e :
  _parse_target httpx_URL url = Raise e
  \/ (exists target, _parse_target httpx_URL url = Ok target
                     /\ _host_key httpx_URL target = Raise e) ->
  proxy_raw httpx_URL cfg now_check now_register request_headers url s
  = (s, Raise e).
Proof.
  unfold proxy_raw, mbind, lift.
  intros [Ht|(target & Ht & Hh)]; rewrite Ht; [done|]. by rewrite Hh.
Qed.

Lemma proxy_raw_invalid_request_witness :
  proxy_raw HttpxModel.URL_of_string default_config example_now example_now
    [] "ftp://host/file" example_server
  = (example_server,
     Raise (HTTPException 400
              "Only absolute http(s) URLs with a host are allowed" [])).
Proof.
  apply proxy_raw_invalid_request. left. vm_compute. reflexivity.
Defined.

(** X9.  Without a client nothing is sent.  After [shutdown], a request
    that gets past validation and the backoff check raises
    [RuntimeError]; no upstream request is made, and the ledger is the one
    the backoff check left. *)
Theorem proxy_raw_after_shutdown (httpx_URL : string -> string + URL) cfg
    now_check now_register request_headers url s target host_key b1 :
  passes_gate httpx_URL now_check url s target host_key b1 ->
  proxy_raw httpx_URL cfg now_check now_register request_headers url
    (shutdown s)
  = ({| backoffs := b1; client := None; sent := sent s |},
     Raise (RuntimeError "HTTP client not initialised")).
Proof.
  intros Hgate.
  by rewrite (proxy_raw_gate httpx_URL cfg now_check now_register
                request_headers url (shutdown s) target host_key b1 Hgate).
Qed.

Lemma proxy_raw_after_shutdown_witness :
  proxy_raw HttpxModel.URL_of_string default_config example_now example_now
    [] example_url (shutdown (fresh_server (Some example_client)))
  = ({| backoffs := ∅; client := None; sent := [] |},
     Raise (RuntimeError "HTTP client not initialised")).
Proof.
  apply (proxy_raw_after_shutdown HttpxModel.URL_of_string default_config
           example_now example_now [] example_url
           (fresh_server (Some example_client)) example_url "example.com" ∅).
  split; [vm_compute; reflexivity|]. split; [vm_compute; reflexivity|].
  exists None. split; [reflexivity|by left].
Defined.

(** X10.  An upstream that cannot be reached.  Past validation and the
    backoff check, when the client reports a request error, [proxy_raw]
    has sent exactly that one request, records a failure with status 503
    for the host and raises a 502 whose [Retry-After] is the delay on
    record; and a later request for the same URL that comes a full second
    or more before the deadline is turned away with a 429, the server
    untouched. *)
Theorem proxy_raw_upstream_unreachable (httpx_URL : string -> string + URL)
    cfg now_check now_register request_headers url s target host_key b1
    client_get exc :
  passes_gate httpx_URL now_check url s target host_key b1 ->
  client s = Some client_get ->
  client_get target (outbound_request request_headers target) = inl exc ->
  fits now_register (base_backoff cfg host_key 503 b1).2 = true ->
  let d := (base_backoff cfg host_key 503 b1).2 in
  let s' :=
    {| backoffs :=
         <[host_key := {| until := now_register + d * us_per_second;
                          attempts := (base_backoff cfg host_key 503 b1).1;
                          status := 503 |}]> b1;
       client := Some client_get;
       sent := sent s ++ [(target, outbound_request request_headers target)] |} in
  proxy_raw httpx_URL cfg now_check now_register request_headers url s
  = (s', Raise (HTTPException 502 ("Upstream connection failed: " +:+ exc)
                  [("Retry-After", str_of_int d)]))
  /\ forall now_check' now_register' request_headers',
       in_range now_check' = true ->
       now_check' + us_per_second <= now_register + d * us_per_second ->
       exists w,
         proxy_raw httpx_URL cfg now_check' now_register' request_headers'
           url s'
         = (s', Raise (HTTPException 429 "Backoff in effect for upstream host"
                         [("Retry-After", str_of_int w)]))
         /\ 1 <= w.
Proof.
  intros Hgate Hc Hget Hfits d s'. split.
  - rewrite (proxy_raw_gate _ _ _ _ _ _ _ _ _ _ Hgate).
    rewrite (forward_upstream_unreachable _ _ _ _ _ _ client_get exc)
      by done.
    cbn [backoffs client sent set_backoffs].
    rewrite (LedgerFacts.register_backoff_ok cfg now_register host_key 503
               None b1 None eq_refl Hfits).
    cbn [fst snd]. by rewrite Hc.
  - intros now_check' now_register' request_headers' Hnow Hleft.
    destruct Hgate as (Ht & Hh & _).
    eapply throttled_after_insert; try done.
    + cbn [backoffs s']. apply lookup_insert_eq.
    + cbn [until]. by apply fits_in_range.
    + done.
Qed.

Lemma proxy_raw_upstream_unreachable_witness :
  exists s',
    proxy_raw HttpxModel.URL_of_string default_config example_now
      (example_now + 1000000) [] example_url
      (fresh_server (Some unreachable_client))
    = (s', Raise (HTTPException 502
                    "Upstream connection failed: connection refused"
                    [("Retry-After", "30")])).
Proof.
  destruct (proxy_raw_upstream_unreachable HttpxModel.URL_of_string
              default_config example_now (example_now + 1000000) []
              example_url (fresh_server (Some unreachable_client))
              example_url "example.com" ∅ unreachable_client
              "connection refused") as [H _].
  - split; [vm_compute; reflexivity|]. split; [vm_compute; reflexivity|].
    exists None. split; [reflexivity|by left].
  - reflexivity.
  - reflexivity.
  - vm_compute. reflexivity.
  - eexists. exact H.
Defined.

(** X11.  An answer that is not a throttling status is passed through and
    clears the host.  Past validation and the backoff check, when the
    upstream answers with a status other than 429 and outside the
    long-backoff set, [proxy_raw] has sent exactly that one request and
    returns the upstream status, body and content type with the sanitised
    headers; the ledger is the former one without the record of the host,
    so the next check of that host answers none. *)
Theorem proxy_raw_passes_through (httpx_URL : string -> string + URL) cfg
    now_check now_register request_headers url s target host_key b1
    client_get upstream :
  passes_gate httpx_URL now_check url s target host_key b1 ->
  client s = Some client_get ->
  client_get target (outbound_request request_headers target) = inr upstream ->
  status_code upstream <> 429 ->
  status_code upstream ∉ long_backoff_statuses cfg ->
  proxy_raw httpx_URL cfg now_check now_register request_headers url s
  = ({| backoffs := delete host_key (backoffs s);
        client := Some client_get;
        sent := sent s ++ [(target, outbound_request request_headers target)] |},
     Ok {| resp_content := content upstream;
           resp_status_code := status_code upstream;
           resp_headers := sanitize_headers (headers upstream);
           resp_media_type := get (headers upstream) "content-type" |})
  /\ forall later,
       _active_backoff later host_key (delete host_key (backoffs s))
       = (delete host_key (backoffs s), Ok None).
Proof.
  intros Hgate Hc Hget H429 Hlong. split.
  - rewrite (proxy_raw_gate _ _ _ _ _ _ _ _ _ _ Hgate).
    rewrite (forward_upstream_answer _ _ _ _ _ _ client_get upstream)
      by done.
    cbv zeta.
    replace (status_code upstream =? 429) with false
      by (symmetry; by apply Z.eqb_neq).
    rewrite bool_decide_eq_false_2 by done.
    cbn [orb backoffs client sent set_backoffs]. rewrite Hc.
    do 2 f_equal. unfold _clear_backoff.
    destruct Hgate as (_ & _ & wait & Hw & _).
    destruct (active_backoff_ledger now_check host_key (backoffs s)) as [E|E];
      rewrite Hw in E; cbn [fst] in E; rewrite E; [done|].
    apply delete_id, lookup_delete_eq.
  - intros later. unfold _active_backoff. by rewrite lookup_delete_eq.
Qed.

Lemma proxy_raw_passes_through_witness :
  proxy_raw HttpxModel.URL_of_string default_config (example_now + 2000000)
    (example_now + 2200000) [] example_url example_server
  = ({| backoffs := delete "example.com" (backoffs example_server);
        client := Some example_client;
        sent := [(example_url, outbound_request [] example_url)] |},
     Ok {| resp_content := "<rss/>";
           resp_status_code := 200;
           resp_headers := sanitize_headers (headers (example_answer));
           resp_media_type :=
             get (headers (example_answer)) "content-type" |}).
Proof.
  apply (proxy_raw_passes_through HttpxModel.URL_of_string default_config
           (example_now + 2000000) (example_now + 2200000) [] example_url
           example_server example_url "example.com" ∅ example_client
           example_answer).
  - split; [vm_compute; reflexivity|]. split; [vm_compute; reflexivity|].
    exists None. split; [vm_compute; reflexivity|by left].
  - reflexivity.
  - reflexivity.
  - discriminate.
  - by vm_compute.
Defined.

(** X12.  A throttling answer is passed through and recorded.  Past
    validation and the backoff check, when the upstream answers 429 or a
    long-backoff status, [proxy_raw] returns the upstream status and body
    and writes a record for the host; the delay, on record and in the
    [Retry-After] item of the response, is the computed backoff alone: a
    [Retry-After] header of the upstream, in whatever letter case, does
    not enter it.  A later request for the same URL that comes a full
    second or more before the deadline is turned away with a 429. *)
Theorem proxy_raw_registers_failure (httpx_URL : string -> string + URL) cfg
    now_check now_register request_headers url s target host_key b1
    client_get upstream :
  passes_gate httpx_URL now_check url s target host_key b1 ->
  client s = Some client_get ->
  client_get target (outbound_request request_headers target) = inr upstream ->
  status_code upstream = 429
  \/ status_code upstream ∈ long_backoff_statuses cfg ->
  fits now_register
    (base_backoff cfg host_key (status_code upstream) b1).2 = true ->
  let d := (base_backoff cfg host_key (status_code upstream) b1).2 in
  let s' :=
    {| backoffs :=
         <[host_key :=
             {| until := now_register + d * us_per_second;
                attempts :=
                  (base_backoff cfg host_key (status_code upstream) b1).1;
                status := status_code upstream |}]> b1;
       client := Some client_get;
       sent := sent s ++ [(target, outbound_request request_headers target)] |} in
  proxy_raw httpx_URL cfg now_check now_register request_headers url s
  = (s', Ok {| resp_content := content upstream;
               resp_status_code := status_code upstream;
               resp_headers :=
                 <["Retry-After" := str_of_int d]>
                   (sanitize_headers (headers upstream));
               resp_media_type := get (headers upstream) "content-type" |})
  /\ forall now_check' now_register' request_headers',
       in_range now_check' = true ->
       now_check' + us_per_second <= now_register + d * us_per_second ->
       exists w,
         proxy_raw httpx_URL cfg now_check' now_register' request_headers'
           url s'
         = (s', Raise (HTTPException 429 "Backoff in effect for upstream host"
                         [("Retry-After", str_of_int w)]))
         /\ 1 <= w.
Proof.
  intros Hgate Hc Hget Hstatus Hfits d s'. split.
  - rewrite (proxy_raw_gate _ _ _ _ _ _ _ _ _ _ Hgate).
    rewrite (forward_upstream_answer _ _ _ _ _ _ client_get upstream)
      by done.
    cbv zeta.
    replace ((status_code upstream =? 429)
             || bool_decide (status_code upstream ∈ long_backoff_statuses cfg))
      with true.
    2:{ symmetry. apply orb_true_iff. destruct Hstatus as [E|E].
        - left. by apply Z.eqb_eq.
        - right. by apply bool_decide_eq_true_2. }
    cbn [backoffs client sent set_backoffs].
    rewrite (LedgerFacts.register_backoff_ok cfg now_register host_key
               (status_code upstream) None b1 None eq_refl Hfits).
    cbn [fst snd]. by rewrite Hc.
  - intros now_check' now_register' request_headers' Hnow Hleft.
    destruct Hgate as (Ht & Hh & _).
    eapply throttled_after_insert; try done.
    + cbn [backoffs s']. apply lookup_insert_eq.
    + cbn [until]. by apply fits_in_range.
    + done.
Qed.

Lemma proxy_raw_registers_failure_witness :
  exists s' resp,
    proxy_raw HttpxModel.URL_of_string default_config example_now
      (example_now + 1000000) [] example_url
      (fresh_server (Some busy_client))
    = (s', Ok resp)
    /\ resp_headers resp !! "Retry-After" = Some "30"
    /\ resp_headers resp !! "retry-after" = Some "3600".
Proof.
  destruct (proxy_raw_registers_failure HttpxModel.URL_of_string
              default_config example_now (example_now + 1000000) []
              example_url (fresh_server (Some busy_client))
              example_url "example.com" ∅ busy_client
              busy_answer) as [H _].
  - split; [vm_compute; reflexivity|]. split; [vm_compute; reflexivity|].
    exists None. split; [reflexivity|by left].
  - reflexivity.
  - reflexivity.
  - by left.
  - vm_compute. reflexivity.
  - eexists _, _. split; [exact H|]. split; vm_compute; reflexivity.
Defined.

(** The upstream part, state and result. *)
Lemma forward_upstream_cases cfg now_register request_headers target
    host_key s :
  let r := forward_upstream cfg now_register request_headers target
             host_key s in
  (exists e, r = (s, Raise e))
  \/ exists b2,
       r.1 = {| backoffs := b2; client := client s;
                sent := sent s
                        ++ [(target, outbound_request request_headers target)] |}
       /\ (b2 = _clear_backoff host_key (backoffs s)
           \/ exists status hdr,
                b2 = (_register_backoff cfg now_register host_key status hdr
                        (backoffs s)).1)
       /\ after_upstream r.2.
Proof.
  cbv zeta. destruct (client s) as [client_get|] eqn:Hc.
  - right.
    destruct (client_get target (outbound_request request_headers target))
      as [exc|upstream] eqn:Hget.
    + rewrite (forward_upstream_unreachable _ _ _ _ _ _ client_get exc)
        by done.
      cbv zeta. cbn [fst snd]. eexists. split; [by rewrite Hc|].
      split; [right; by eexists _, _|].
      destruct (_register_backoff _ _ _ _ _ _) as [b [d|e]] eqn:Hrun;
        cbn [snd after_upstream]; [done|].
      by apply LedgerMore.register_backoff_raises_overflow in Hrun as ->.
    + rewrite (forward_upstream_answer _ _ _ _ _ _ client_get upstream)
        by done.
      cbv zeta. destruct (_ || _); cbn [fst snd].
      * eexists. split; [by rewrite Hc|].
        split; [right; by eexists _, _|].
        destruct (_register_backoff _ _ _ _ _ _) as [b [d|e]] eqn:Hrun;
          cbn [snd after_upstream]; [done|].
        by apply LedgerMore.register_backoff_raises_overflow in Hrun as ->.
      * eexists. split; [by rewrite Hc|]. split; [by left|done].
  - left. unfold forward_upstream. rewrite Hc. by eexists.
Qed.

(** [proxy_raw], state and result: it stops at validation, or at the
    backoff check or the missing client, or it hands one request to the
    client. *)
Lemma proxy_raw_cases (httpx_URL : string -> string + URL) cfg
    now_check now_register request_headers url s :
  let r := proxy_raw httpx_URL cfg now_check now_register request_headers
             url s in
  (exists e, r = (s, Raise e))
  \/ exists target host_key,
       _parse_target httpx_URL url = Ok target
       /\ _host_key httpx_URL target = Ok host_key
       /\ let b1 := (_active_backoff now_check host_key (backoffs s)).1 in
          (exists e, r = (set_backoffs b1 s, Raise e))
          \/ exists b2,
               r.1 = {| backoffs := b2; client := client s;
                        sent := sent s
                                ++ [(target,
                                     outbound_request request_headers target)] |}
               /\ (b2 = _clear_backoff host_key b1
                   \/ exists status hdr,
                        b2 = (_register_backoff cfg now_register host_key
                                status hdr b1).1)
               /\ after_upstream r.2.
Proof.
  cbv zeta. unfold proxy_raw, mbind, lift, on_backoffs, raise.
  destruct (_parse_target httpx_URL url) as [target|e] eqn:Ht;
    [|left; by eexists].
  destruct (_host_key httpx_URL target) as [host_key|e] eqn:Hh;
    [|left; by eexists].
  right. exists target, host_key. split; [done|]. split; [done|].
  destruct (_active_backoff now_check host_key (backoffs s)) as [b1 [wait|e]];
    cbn [fst]; [|left; by eexists].
  assert (Hfwd :
    (exists e, forward_upstream cfg now_register request_headers target
                 host_key (set_backoffs b1 s) = (set_backoffs b1 s, Raise e))
    \/ exists b2,
         (forward_upstream cfg now_register request_headers target host_key
            (set_backoffs b1 s)).1
         = {| backoffs := b2; client := client s;
              sent := sent s
                      ++ [(target, outbound_request request_headers target)] |}
         /\ (b2 = _clear_backoff host_key b1
             \/ exists status hdr,
                  b2 = (_register_backoff cfg now_register host_key status hdr
                          b1).1)
         /\ after_upstream
              (forward_upstream cfg now_register request_headers target
                 host_key (set_backoffs b1 s)).2).
  { apply (forward_upstream_cases cfg now_register request_headers target
             host_key (set_backoffs b1 s)). }
  destruct wait as [w|]; [|exact Hfwd].
  destruct (w =? 0); [exact Hfwd|]. left. by eexists.
Qed.

Lemma active_backoff_other now H K (backoffs : gmap string BackoffRecord) :
  H <> K -> (_active_backoff now H backoffs).1 !! K = backoffs !! K.
Proof.
  intros Hne. unfold _active_backoff.
  destruct (backoffs !! H) as [r|]; [|done].
  destruct (until r <=? now); cbn [fst]; [|done]. by apply lookup_delete_ne.
Qed.

Lemma register_backoff_other cfg now H K status hdr
    (backoffs : gmap string BackoffRecord) :
  H <> K ->
  (_register_backoff cfg now H status hdr backoffs).1 !! K = backoffs !! K.
Proof.
  intros Hne.
  destruct (_register_backoff cfg now H status hdr backoffs)
    as [b' [d|e]] eqn:Hrun; cbn [fst].
  - apply LedgerFacts.register_backoff_inv in Hrun as (_ & _ & _ & _ & ->).
    by apply lookup_insert_ne.
  - by apply LedgerFacts.register_backoff_raise in Hrun as ->.
Qed.

(** The record of a host other than the host of the request. *)
Lemma proxy_raw_other_host (httpx_URL : string -> string + URL) cfg
    now_check now_register request_headers url s K :
  (forall target host_key,
     _parse_target httpx_URL url = Ok target ->
     _host_key httpx_URL target = Ok host_key -> host_key <> K) ->
  backoffs (proxy_raw httpx_URL cfg now_check now_register request_headers
              url s).1 !! K
  = backoffs s !! K.
Proof.
  intros Hother.
  destruct (proxy_raw_cases httpx_URL cfg now_check now_register
              request_headers url s)
    as [[e ->]|(target & host_key & Ht & Hh & Hcases)]; [done|].
  specialize (Hother target host_key Ht Hh).
  pose proof (active_backoff_other now_check host_key K (backoffs s) Hother)
    as Hb1.
  cbv zeta in Hcases. destruct Hcases as [[e ->]|(b2 & -> & Hb2 & _)].
  - done.
  - cbn [backoffs]. destruct Hb2 as [->|(status & hdr & ->)].
    + unfold _clear_backoff. by rewrite lookup_delete_ne.
    + by rewrite register_backoff_other.
Qed.

(** X13.  A request touches the ledger at its own host only.  Whatever
    the outcome of [proxy_raw], the client is the one it was, and the
    record of every host other than the host of the requested URL is as it
    was before. *)
Theorem proxy_raw_frame (httpx_URL : string -> string + URL) cfg
    now_check now_register request_headers url s K :
  (forall target host_key,
     _parse_target httpx_URL url = Ok target ->
     _host_key httpx_URL target = Ok host_key -> host_key <> K) ->
  let s' := (proxy_raw httpx_URL cfg now_check now_register request_headers
               url s).1 in
  client s' = client s /\ backoffs s' !! K = backoffs s !! K.
Proof.
  intros Hother. cbv zeta. split; [|by apply proxy_raw_other_host].
  destruct (proxy_raw_cases httpx_URL cfg now_check now_register
              request_headers url s)
    as [[e ->]|(target & host_key & Ht & Hh & Hcases)]; [done|].
  cbv zeta in Hcases. by destruct Hcases as [[e ->]|(b2 & -> & _)].
Qed.

Lemma proxy_raw_frame_witness :
  let s' := (proxy_raw HttpxModel.URL_of_string default_config
               (example_now + 2000000) (example_now + 2200000) []
               "http://other.example/feed" example_server).1 in
  client s' = client example_server
  /\ backoffs s' !! "example.com" = backoffs example_server !! "example.com".
Proof.
  apply (proxy_raw_frame HttpxModel.URL_of_string default_config
           (example_now + 2000000) (example_now + 2200000) []
           "http://other.example/feed" example_server "example.com").
  intros target host_key Ht Hh.
  assert (target = "http://other.example/feed") as ->
    by (vm_compute in Ht; congruence).
  assert (host_key = "other.example") as ->
    by (vm_compute in Hh; congruence).
  discriminate.
Defined.

(** X14.  One request in, at most one request out.  [proxy_raw] hands the
    client no request or exactly one, for the validated target with the
    four outbound headers, and never drops an earlier one; a response is
    returned only after that request, and an [HTTPException] other than
    the 502 (the 400 of validation, the 429 of the backoff check) means
    that none was made. *)
Theorem proxy_raw_one_request (httpx_URL : string -> string + URL) cfg
    now_check now_register request_headers url s :
  let r := proxy_raw httpx_URL cfg now_check now_register request_headers
             url s in
  (sent r.1 = sent s
   \/ exists target,
        _parse_target httpx_URL url = Ok target
        /\ sent r.1
           = sent s ++ [(target, outbound_request request_headers target)])
  /\ (forall resp, r.2 = Ok resp ->
      exists target,
        _parse_target httpx_URL url = Ok target
        /\ sent r.1
           = sent s ++ [(target, outbound_request request_headers target)])
  /\ (forall code detail hs,
        r.2 = Raise (HTTPException code detail hs) -> code <> 502 ->
        sent r.1 = sent s).
Proof.
  cbv zeta.
  destruct (proxy_raw_cases httpx_URL cfg now_check now_register
              request_headers url s)
    as [[e ->]|(target & host_key & Ht & Hh & Hcases)].
  { cbn. split; [by left|]. split; [discriminate|done]. }
  cbv zeta in Hcases. destruct Hcases as [[e ->]|(b2 & Hs & _ & Hres)].
  { cbn. split; [by left|]. split; [discriminate|done]. }
  rewrite Hs. cbn [sent]. split; [right; by exists target|].
  split; [intros; by exists target|].
  intros code detail hs Hr Hcode. rewrite Hr in Hres. by cbn in Hres.
Qed.

(** X15.  Requests keep the ledger one that Python can hold: if every
    record has a representable deadline and at least one attempt before
    [proxy_raw], so has every record after it, whatever the outcome. *)
Theorem proxy_raw_wf (httpx_URL : string -> string + URL) cfg
    now_check now_register request_headers url s :
  ledger_wf (backoffs s) ->
  ledger_wf (backoffs (proxy_raw httpx_URL cfg now_check now_register
                         request_headers url s).1).
Proof.
  intros Hwf.
  destruct (proxy_raw_cases httpx_URL cfg now_check now_register
              request_headers url s)
    as [[e ->]|(target & host_key & Ht & Hh & Hcases)]; [done|].
  pose proof (LedgerFacts.active_backoff_wf now_check host_key (backoffs s)
                Hwf) as Hwf1.
  cbv zeta in Hcases. destruct Hcases as [[e ->]|(b2 & -> & Hb2 & _)].
  - done.
  - cbn [backoffs]. destruct Hb2 as [->|(status & hdr & ->)].
    + by apply LedgerFacts.clear_backoff_wf.
    + by apply LedgerFacts.register_backoff_wf.
Qed.

Lemma proxy_raw_wf_witness :
  ledger_wf (backoffs (proxy_raw HttpxModel.URL_of_string default_config
                         example_now (example_now + 1000000) [] example_url
                         (fresh_server (Some busy_client))).1).
Proof.
  apply proxy_raw_wf. intros h r Hr.
  unfold fresh_server in Hr. cbn [backoffs] in Hr.
  by rewrite lookup_empty in Hr.
Defined.

End ForwarderMore.

(** ** The keys of the ledger *)

Module KeysFacts.
Import Py Datetime Httpx CorsProxyServer Scenario Routes.

(** X16.  The ledger only gains hosts.  A host that has a record after
    [proxy_raw] had one before, or it is the host of the validated target
    of this request, and then it is not the empty string. *)
Theorem proxy_raw_keys (httpx_URL : string -> string + URL) cfg
    now_check now_register request_headers url s K :
  is_Some (backoffs (proxy_raw httpx_URL cfg now_check now_register
                       request_headers url s).1 !! K) ->
  is_Some (backoffs s !! K)
  \/ (K <> ""
      /\ exists target,
           _parse_target httpx_URL url = Ok target
           /\ _host_key httpx_URL target = Ok K).
Proof.
  intros HK.
  destruct (decide (is_Some (backoffs s !! K))) as [|Hnew]; [by left|].
  right.
  destruct (ForwarderMore.proxy_raw_cases httpx_URL cfg now_check
              now_register request_headers url s)
    as [[e Hr]|(target & host_key & Ht & Hh & Hcases)];
    [by rewrite Hr in HK|].
  destruct (decide (host_key = K)) as [->|Hne].
  - split; [|by exists target].
    revert Hh. unfold _host_key. destruct (parse_URL httpx_URL target) as [u|];
      [|discriminate].
    cbn [bind]. case_bool_decide; [discriminate|]. by intros [= <-].
  - exfalso. apply Hnew.
    rewrite <- (ForwarderMore.proxy_raw_other_host httpx_URL cfg now_check
                  now_register request_headers url s K); [done|].
    intros t h Ht' Hh'. congruence.
Qed.

Lemma proxy_raw_keys_witness :
  is_Some (backoffs (fresh_server (Some busy_client)) !! "example.com")
  \/ ("example.com" <> ""
      /\ exists target,
           _parse_target HttpxModel.URL_of_string example_url = Ok target
           /\ _host_key HttpxModel.URL_of_string target = Ok "example.com").
Proof.
  apply (proxy_raw_keys HttpxModel.URL_of_string default_config example_now
           (example_now + 1000000) [] example_url
           (fresh_server (Some busy_client)) "example.com").
  vm_compute. by eexists.
Defined.

End KeysFacts.

(** ** Request decoration and static files *)

Module RoutesFacts.
Import Py Datetime Httpx CorsProxyServer Scenario Routes.






(** X18.  A static route answers with a file that is there or with a 404.
    For each of the eight file routes and any state of the file system:
    when the file under the static root is missing, the route raises the
    404 naming it; otherwise it answers with exactly that file, with
    [Cache-Control: no-store] for the three FeedCycle files and no extra
    header for the others. *)
Theorem file_routes_spec (joinpath : string -> string -> string)
    (is_file : string -> bool) (static_root : string) :
  Forall (fun route : string * result FileResponse =>
            let path := joinpath static_root route.1 in
            if is_file path
            then exists media_type,
                   route.2
                   = Ok {| file_path := path;
                           file_media_type := media_type;
                           file_headers :=
                             if bool_decide
                                  (route.1 ∈ ["feedcycle.html"; "feedcycle.js";
                                              "feedcycle.css"])
                             then Some [("Cache-Control", "no-store")]
                             else None |}
            else route.2
                 = Raise (HTTPException 404 ("Missing " +:+ route.1) []))
         (file_routes joinpath is_file static_root).
Proof.
  unfold file_routes.
  repeat (apply Forall_cons; split;
          [cbv zeta; cbn [fst snd];
           unfold serve_feedcycle_html, serve_feedcycle_js,
             serve_feedcycle_css, serve_pwa_js, serve_version_js,
             serve_parental_js, serve_manifest, serve_favicon,
             _file_response;
           cbv zeta; destruct (is_file _); cbn [negb]; [by eexists|done]|]).
  apply Forall_nil_2.
Qed.

End RoutesFacts.

(** ** The header argument of [_register_backoff] *)

Module HeaderFacts.
Import Py Datetime CorsProxyServer Scenario Routes.





(** C6 (as stated) fails: the header [45.7] is a valid number of seconds
    that is not negative, and after a first 429 the delay returned is 45,
    below the number that the header writes. *)
Lemma register_backoff_below_header :
  (_register_backoff default_config example_now "x" 429 (Some "45.7") ∅).2
  = Ok 45
  /\ exists x, float_of_string "45.7" = Ok x /\ int_lt_float 45 x = true.
Proof.
  split; [vm_compute; reflexivity|].
  eexists. split; vm_compute; reflexivity.
Qed.

End HeaderFacts.
